(** * Streaming anomaly detection: statistics, classifier and windowed series

    A shallow embedding of [AnomalyDetection.py].  Samples are IEEE-754
    binary64 values, modelled by Rocq's primitive floats, whose operations
    are the ones Python's [float] and numpy's [float64] perform.  Ticks are
    Python integers, modelled in [Z].  A [collections.deque] is a list of
    items together with its optional [maxlen]. *)

From Stdlib Require Import String ZArith List Bool Lia Sorted.
From Stdlib Require Import Floats Uint63 DecimalString.
Import ListNotations.

Open Scope Z_scope.

(** ** Constants *)

Definition WINDOW_SIZE : Z := 40.
Definition LOWER_BOUND : Z := -20.
Definition UPPER_BOUND : Z := 20.
Definition DISPLAY_DURATION : Z := 40.

(** Python converts an integer operand to a float before a mixed operation.
    Every integer met here (a constant or a length of at most a few dozen)
    is far below [2^53], where the conversion is exact. *)
Definition float_of_int (z : Z) : float :=
  if z <? 0 then (- of_uint63 (Uint63.of_Z (- z)))%float
  else of_uint63 (Uint63.of_Z z).

(** ** [collections.deque] *)

Module Deque.

Record deque (A : Type) : Type := mk
  { items : list A;
    maxlen : option Z }.
Arguments mk {A} _ _.
Arguments items {A} _.
Arguments maxlen {A} _.

(** [deque(maxlen=m)] and [deque()]. *)
Definition empty {A : Type} (m : option Z) : deque A := mk [] m.

(** [len(d)] *)
Definition len {A : Type} (d : deque A) : Z := Z.of_nat (length (items d)).

(** [d.append(x)]: the item goes to the right end; a bounded deque that
    has grown past [maxlen] then drops its leftmost item. *)
Definition append {A : Type} (d : deque A) (x : A) : deque A :=
  let l := items d ++ [x] in
  match maxlen d with
  | Some m => if m <? Z.of_nat (length l) then mk (tl l) (maxlen d)
              else mk l (maxlen d)
  | None => mk l (maxlen d)
  end.

(** [d.popleft()]: [None] stands for the [IndexError] of an empty deque. *)
Definition popleft {A : Type} (d : deque A) : option (A * deque A) :=
  match items d with
  | [] => None
  | x :: l => Some (x, mk l (maxlen d))
  end.

End Deque.
Import Deque.

(** ** Running statistics (the module-level [window], [mean], [std_dev]) *)

Record Stats : Type := mkStats
  { window : deque float;
    mean : float;
    std_dev : float }.

Definition initial_stats : Stats :=
  {| window := Deque.empty (Some WINDOW_SIZE);
     mean := 0;
     std_dev := 1 |}.

Definition update_mean_std (s : Stats) (new_value : float) : Stats :=
  let n := Deque.len (window s) in
  if n =? 0 then
    {| window := window s; mean := new_value; std_dev := 0 |}
  else
    let old_mean := mean s in
    let mean' :=
      (mean s + (new_value - old_mean) / float_of_int (n + 1))%float in
    let acc :=
      (std_dev s + (new_value - old_mean) * (new_value - mean'))%float in
    {| window := window s;
       mean := mean';
       std_dev :=
         if 1 <? n then PrimFloat.sqrt (acc / float_of_int n) else 1 |}.

(** The two statements of the main loop that touch the statistics:
    [window.append(new_value)] and then [update_mean_std(new_value)]. *)
Definition observe (s : Stats) (new_value : float) : Stats :=
  update_mean_std
    {| window := Deque.append (window s) new_value;
       mean := mean s;
       std_dev := std_dev s |}
    new_value.

(** ** The classifier *)

(** The [try]/[except] of the source guards two float comparisons, which
    never raise; [previous_value] is taken and not read. *)
Definition detect_anomaly (new_value previous_value : float)
    (is_generated_anomaly : bool) : bool :=
  if is_generated_anomaly then true
  else if ((new_value <? float_of_int LOWER_BOUND)
           || (float_of_int UPPER_BOUND <? new_value))%float then true
  else false.

(** ** Eviction of entries that left the display window *)

(** The loop [while data_x and data_x[0] < current_time - WINDOW_SIZE],
    one iteration per item taken from the head of [data_x]; [None] is the
    [IndexError] of [data_y.popleft()] on an empty deque. *)
Fixpoint clean_loop (xs : list Z) (m : option Z) (data_y : deque float)
    (current_time : Z) : option (deque Z * deque float) :=
  match xs with
  | [] => Some (Deque.mk [] m, data_y)
  | x :: xs' =>
      if x <? current_time - WINDOW_SIZE then
        match Deque.popleft data_y with
        | Some (_, data_y') => clean_loop xs' m data_y' current_time
        | None => None
        end
      else Some (Deque.mk xs m, data_y)
  end.

Definition clean_old_data (data_x : deque Z) (data_y : deque float)
    (current_time : Z) : deque Z * deque float :=
  match items data_x with
  | [] => (data_x, data_y)
  | _ =>
      match clean_loop (items data_x) (maxlen data_x) data_y current_time with
      | Some r => r
      | None => (Deque.empty None, Deque.empty None)
      end
  end.

(** The same loop written inline in [run_anomaly_detection] for the three
    anomaly deques; there an [IndexError] is not caught locally. *)
Fixpoint clean_old_anomalies (xs : list Z) (m : option Z)
    (anomaly_y : deque float) (anomaly_labels : deque string)
    (current_time : Z) : option (deque Z * deque float * deque string) :=
  match xs with
  | [] => Some (Deque.mk [] m, anomaly_y, anomaly_labels)
  | x :: xs' =>
      if x <? current_time - WINDOW_SIZE then
        match Deque.popleft anomaly_y with
        | Some (_, anomaly_y') =>
            match Deque.popleft anomaly_labels with
            | Some (_, anomaly_labels') =>
                clean_old_anomalies xs' m anomaly_y' anomaly_labels'
                  current_time
            | None => None
            end
        | None => None
        end
      else Some (Deque.mk xs m, anomaly_y, anomaly_labels)
  end.

(** ** The main loop *)

Record LoopState : Type := mkLoop
  { stats : Stats;
    data_x : deque Z;
    data_y : deque float;
    anomaly_x : deque Z;
    anomaly_y : deque float;
    anomaly_labels : deque string;
    previous_value : float;
    current_time : Z }.

Definition initial_state : LoopState :=
  {| stats := initial_stats;
     data_x := Deque.empty (Some DISPLAY_DURATION);
     data_y := Deque.empty (Some DISPLAY_DURATION);
     anomaly_x := Deque.empty (Some DISPLAY_DURATION);
     anomaly_y := Deque.empty (Some DISPLAY_DURATION);
     anomaly_labels := Deque.empty (Some DISPLAY_DURATION);
     previous_value := 0;
     current_time := 0 |}.

Section MainLoop.

(** The rendering [f"{new_value:.2f}"] of a sample. *)
Variable format_2f : float -> string.

(** One iteration of the [for] loop of [run_anomaly_detection], without the
    plotting calls.  [None] is an exception reaching the handler around the
    loop, which ends it. *)
Definition tick (st : LoopState) (sample : float * bool) : option LoopState :=
  let (new_value, is_generated_anomaly) := sample in
  let current_time := current_time st + 1 in
  let stats := observe (stats st) new_value in
  let '(anomaly_x, anomaly_y, anomaly_labels) :=
    if detect_anomaly new_value (previous_value st) is_generated_anomaly then
      (Deque.append (anomaly_x st) current_time,
       Deque.append (anomaly_y st) new_value,
       Deque.append (anomaly_labels st) (format_2f new_value))
    else (anomaly_x st, anomaly_y st, anomaly_labels st) in
  let data_x := Deque.append (data_x st) current_time in
  let data_y := Deque.append (data_y st) new_value in
  let (data_x, data_y) := clean_old_data data_x data_y current_time in
  match clean_old_anomalies (items anomaly_x) (maxlen anomaly_x)
          anomaly_y anomaly_labels current_time with
  | Some (anomaly_x, anomaly_y, anomaly_labels) =>
      Some {| stats := stats;
              data_x := data_x;
              data_y := data_y;
              anomaly_x := anomaly_x;
              anomaly_y := anomaly_y;
              anomaly_labels := anomaly_labels;
              previous_value := new_value;
              current_time := current_time |}
  | None => None
  end.

(** The loop over a finite prefix of the producer's stream. *)
Fixpoint run_anomaly_detection (st : LoopState) (samples : list (float * bool))
    : option LoopState :=
  match samples with
  | [] => Some st
  | sample :: rest =>
      match tick st sample with
      | Some st' => run_anomaly_detection st' rest
      | None => None
      end
  end.

End MainLoop.

(** ** Python's fixed-point rendering with two decimals

    The digits Python prints for [f"{v:.2f}"]: the exact value of the float,
    rounded to hundredths, ties to even. *)

Definition digits (n : Z) : string :=
  NilZero.string_of_uint (N.to_uint (Z.to_N n)).

Definition round_half_even (num den : Z) : Z :=
  let q := num / den in
  let r := num mod den in
  if (den <? 2 * r) || ((den =? 2 * r) && Z.odd q) then q + 1 else q.

Definition fixed_2 (negative : bool) (hundredths : Z) : string :=
  ((if negative then "-" else "") ++ digits (hundredths / 100) ++ "."
   ++ digits (hundredths mod 100 / 10) ++ digits (hundredths mod 10))%string.

Definition python_format_2f (v : float) : string :=
  match Prim2SF v with
  | S754_nan => "nan"
  | S754_infinity s => if s then "-inf" else "inf"
  | S754_zero s => fixed_2 s 0
  | S754_finite s m e =>
      fixed_2 s (if 0 <=? e then 100 * Zpos m * 2 ^ e
                 else round_half_even (100 * Zpos m) (2 ^ (- e)))
  end.

(** ** Auxiliary notions for the statements *)

(** How many items [append] drops from the left of [items d ++ [x]]. *)
Definition overflow {A : Type} (d : deque A) : nat :=
  match maxlen d with
  | Some m => if m <? Deque.len d + 1 then 1%nat else 0%nat
  | None => 0%nat
  end.

(** The length of the leading run of entries older than the cutoff. *)
Fixpoint stale (xs : list Z) (cutoff : Z) : nat :=
  match xs with
  | [] => 0%nat
  | x :: xs' => if x <? cutoff then S (stale xs' cutoff) else 0%nat
  end.

(** Entries lost from the left of a series in one tick: [tr] by the capacity
    bound at the append, then the stale ones. *)
Definition evicted (l : list Z) (tr : nat) (cutoff : Z) : nat :=
  (tr + stale (skipn tr l) cutoff)%nat.

(** The structural invariant of the loop: every deque keeps its bound, and
    the deques that are popped together have the same length. *)
Record wf (st : LoopState) : Prop := mk_wf
  { wf_window : maxlen (window (stats st)) = Some WINDOW_SIZE;
    wf_data_x : maxlen (data_x st) = Some DISPLAY_DURATION;
    wf_data_y : maxlen (data_y st) = Some DISPLAY_DURATION;
    wf_anomaly_x : maxlen (anomaly_x st) = Some DISPLAY_DURATION;
    wf_anomaly_y : maxlen (anomaly_y st) = Some DISPLAY_DURATION;
    wf_anomaly_labels : maxlen (anomaly_labels st) = Some DISPLAY_DURATION;
    wf_data_len : length (items (data_y st)) = length (items (data_x st));
    wf_anomaly_y_len :
      length (items (anomaly_y st)) = length (items (anomaly_x st));
    wf_anomaly_labels_len :
      length (items (anomaly_labels st)) = length (items (anomaly_x st)) }.

(** Timestamps in non-decreasing order, none later than [t]. *)
Definition ordered_upto (t : Z) (l : list Z) : Prop :=
  StronglySorted Z.le l /\ Forall (fun x => x <= t) l.

(** The value [previous_value] holds when tick [k + 1] starts. *)
Definition previous_before (history : list (float * bool)) (k : nat) : float :=
  last (map fst (firstn k history)) 0%float.

(** The sample of tick [t] had value [v] and the loop classified it as an
    anomaly. *)
Definition flagged_at (history : list (float * bool)) (t : Z) (v : float)
    : Prop :=
  1 <= t /\
  exists flag,
    nth_error history (Z.to_nat (t - 1)) = Some (v, flag) /\
    detect_anomaly v (previous_before history (Z.to_nat (t - 1))) flag = true.

(** Finite values, and positive finite values, of the specification of
    binary64 that the primitive operations are axiomatised against. *)
Definition sf_finite (x : spec_float) : bool :=
  match x with
  | S754_nan | S754_infinity _ => false
  | _ => true
  end.

Definition sf_positive (x : spec_float) : bool :=
  match x with
  | S754_finite false _ _ => true
  | _ => false
  end.

(** The ticks [1 .. k]. *)
Definition stamps (k : nat) : list Z := map Z.of_nat (seq 1 k).

(** The entry a tick appends to the anomaly series, if any. *)
Definition pending {A : Type} (b : bool) (x : A) : list A :=
  if b then [x] else [].

(** What one tick does to a well-formed state: each series is its former
    content, followed by the new entry if any, less a number of entries at
    the left that is common to the deques of that series. *)
(** What one tick does to a well-formed state: each series is its former
    content, followed by the new entry if any, less a number of entries at
    the left that is common to the deques of that series. *)
Record tick_post (format_2f : float -> string) (st : LoopState)
    (v : float) (flag : bool) (st' : LoopState) : Prop := mk_tick_post
  { post_stats : stats st' = observe (stats st) v;
    post_previous : previous_value st' = v;
    post_time : current_time st' = current_time st + 1;
    post_data_x :
      items (data_x st') =
      skipn (evicted (items (data_x st) ++ [current_time st + 1])
               (overflow (data_x st)) (current_time st + 1 - WINDOW_SIZE))
        (items (data_x st) ++ [current_time st + 1]);
    post_data_y :
      items (data_y st') =
      skipn (evicted (items (data_x st) ++ [current_time st + 1])
               (overflow (data_x st)) (current_time st + 1 - WINDOW_SIZE))
        (items (data_y st) ++ [v]);
    post_anomaly :
      let b := detect_anomaly v (previous_value st) flag in
      let t := current_time st + 1 in
      let n := evicted (items (anomaly_x st) ++ pending b t)
                 (if b then overflow (anomaly_x st) else 0%nat)
                 (t - WINDOW_SIZE) in
      items (anomaly_x st') = skipn n (items (anomaly_x st) ++ pending b t) /\
      items (anomaly_y st') = skipn n (items (anomaly_y st) ++ pending b v) /\
      items (anomaly_labels st') =
      skipn n (items (anomaly_labels st) ++ pending b (format_2f v)) }.

(** ** Sample streams for the concrete runs *)

(** One sample per tick for 50 ticks, the tick itself as the value. *)
Definition fifty_samples : list (float * bool) :=
  map (fun n => (float_of_int (Z.of_nat n), false)) (seq 1 50).

(** An anomaly at tick 1 followed by unflagged samples inside the bounds. *)
Definition lone_anomaly (quiet_ticks : nat) : list (float * bool) :=
  (25%float, true) :: repeat (0%float, false) quiet_ticks.

(** Timestamps in increasing order, none later than [t] and none more than
    [WINDOW_SIZE] ticks older. *)
Definition fresh_increasing (t : Z) (l : list Z) : Prop :=
  StronglySorted Z.lt l /\ Forall (fun x => t - WINDOW_SIZE <= x <= t) l.

(** Deques for the examples of [clean_old_data]. *)
Definition example_data_x : deque Z := Deque.mk [1; 2; 50; 60] (Some 40).
Definition example_data_y : deque float :=
  Deque.mk [1.5; 2.5; 3.5; 4.5]%float (Some 40).
Definition example_short_y : deque float := Deque.mk [1.5]%float (Some 40).

(** ** Deques *)

Lemma append_items {A : Type} (d : deque A) (x : A) :
  items (Deque.append d x) = skipn (overflow d) (items d ++ [x]).
Proof.
  unfold Deque.append, overflow, Deque.len.
  destruct (maxlen d) as [m|]; [|reflexivity].
  rewrite length_app, Nat2Z.inj_add. simpl (Z.of_nat (length [x])).
  destruct (m <? _); reflexivity.
Qed.

Lemma append_maxlen {A : Type} (d : deque A) (x : A) :
  maxlen (Deque.append d x) = maxlen d.
Proof.
  destruct d as [l [m|]]; unfold Deque.append; simpl; [|reflexivity].
  destruct (m <? _); reflexivity.
Qed.

Lemma append_length {A : Type} (d : deque A) (x : A) (m : Z) :
  maxlen d = Some m -> 0 <= m -> Deque.len d <= m ->
  Deque.len (Deque.append d x) <= m.
Proof.
  intros Hm H0 Hle. unfold Deque.len in *.
  rewrite append_items, length_skipn, length_app. unfold overflow, Deque.len.
  rewrite Hm. simpl (length [x]).
  destruct (m <? _) eqn:E; [apply Z.ltb_lt in E | apply Z.ltb_ge in E]; lia.
Qed.

Lemma append_all_bounded {A : Type} (m : Z) (entries : list A) :
  forall d : deque A,
    maxlen d = Some m -> 0 <= m -> Deque.len d <= m ->
    Deque.len (fold_left Deque.append entries d) <= m.
Proof.
  induction entries as [|x entries IH]; intros d Hm H0 Hle; simpl.
  - exact Hle.
  - apply IH; [rewrite append_maxlen; exact Hm | exact H0 |].
    apply append_length; assumption.
Qed.

Lemma overflow_same_length {A B : Type} (d : deque A) (e : deque B) :
  maxlen d = maxlen e -> length (items d) = length (items e) ->
  overflow d = overflow e.
Proof. unfold overflow, Deque.len. intros -> ->. reflexivity. Qed.

(** ** Eviction *)

Lemma clean_loop_spec (xs : list Z) :
  forall (m : option Z) (dy : deque float) (t : Z),
    length (items dy) = length xs ->
    clean_loop xs m dy t =
    Some (Deque.mk (skipn (stale xs (t - WINDOW_SIZE)) xs) m,
          Deque.mk (skipn (stale xs (t - WINDOW_SIZE)) (items dy)) (maxlen dy)).
Proof.
  induction xs as [|x xs IH]; intros m [ys my] t Hlen; simpl in *.
  - reflexivity.
  - destruct (x <? t - WINDOW_SIZE); [|reflexivity].
    destruct ys as [|y ys]; [discriminate|].
    unfold Deque.popleft; simpl. rewrite IH by (simpl in *; lia). reflexivity.
Qed.

Lemma clean_old_data_spec (dx : deque Z) (dy : deque float) (t : Z) :
  length (items dy) = length (items dx) ->
  clean_old_data dx dy t =
  (Deque.mk (skipn (stale (items dx) (t - WINDOW_SIZE)) (items dx))
     (maxlen dx),
   Deque.mk (skipn (stale (items dx) (t - WINDOW_SIZE)) (items dy))
     (maxlen dy)).
Proof.
  intros Hlen. unfold clean_old_data.
  destruct (items dx) as [|x xs] eqn:E.
  - destruct dx as [lx mx], dy as [ly my]; simpl in *. subst lx.
    destruct ly; [reflexivity | discriminate].
  - rewrite clean_loop_spec by exact Hlen. reflexivity.
Qed.

Lemma clean_old_anomalies_spec (xs : list Z) :
  forall (m : option Z) (ay : deque float) (al : deque string) (t : Z),
    length (items ay) = length xs ->
    length (items al) = length xs ->
    clean_old_anomalies xs m ay al t =
    Some (Deque.mk (skipn (stale xs (t - WINDOW_SIZE)) xs) m,
          Deque.mk (skipn (stale xs (t - WINDOW_SIZE)) (items ay)) (maxlen ay),
          Deque.mk (skipn (stale xs (t - WINDOW_SIZE)) (items al)) (maxlen al)).
Proof.
  induction xs as [|x xs IH]; intros m [ys my] [ls ml] t Hy Hl; simpl in *.
  - reflexivity.
  - destruct (x <? t - WINDOW_SIZE); [|reflexivity].
    destruct ys as [|y ys]; [discriminate|].
    destruct ls as [|l ls]; [discriminate|].
    unfold Deque.popleft; simpl.
    rewrite IH by (simpl in *; lia). reflexivity.
Qed.

Lemma stale_le (xs : list Z) (c : Z) : (stale xs c <= length xs)%nat.
Proof.
  induction xs as [|x xs IH]; simpl; [lia|].
  destruct (x <? c); lia.
Qed.

(** The eviction loop stops in front of the first entry that is not older than
    the cutoff, so it never reaches an entry behind one. *)
Lemma stale_keeps_fresh (xs ys : list Z) (y c : Z) :
  c <= y -> (stale (xs ++ y :: ys) c <= length xs)%nat.
Proof.
  intros Hy. induction xs as [|x xs IH]; simpl.
  - destruct (y <? c) eqn:E; [apply Z.ltb_lt in E; lia | lia].
  - destruct (x <? c); lia.
Qed.

Lemma stale_none (xs : list Z) (c : Z) :
  Forall (fun x => c <= x) xs -> stale xs c = 0%nat.
Proof.
  intros [|x l Hx _]; simpl; [reflexivity|].
  destruct (x <? c) eqn:E; [apply Z.ltb_lt in E; lia | reflexivity].
Qed.

(** ** One tick *)

Section Ticks.

Variable format_2f : float -> string.

Lemma observe_window (s : Stats) (v : float) :
  window (observe s v) = Deque.append (window s) v.
Proof.
  unfold observe, update_mean_std; simpl.
  destruct (Deque.len _ =? 0); reflexivity.
Qed.

Lemma tick_spec (st : LoopState) (v : float) (flag : bool) :
  wf st ->
  exists st',
    tick format_2f st (v, flag) = Some st' /\
    wf st' /\ tick_post format_2f st v flag st'.
Proof.
  intros [Hw Hdx Hdy Hax Hay Hal Ldy Lay Lal].
  unfold tick.
  set (t := current_time st + 1).
  rewrite clean_old_data_spec
    by (rewrite !append_items, !length_skipn, !length_app, Ldy;
        rewrite (overflow_same_length (data_y st) (data_x st)) by congruence;
        reflexivity).
  rewrite !append_maxlen, !append_items.
  rewrite (overflow_same_length (data_y st) (data_x st)) by congruence.
  rewrite !skipn_skipn.
  destruct (detect_anomaly v (previous_value st) flag) eqn:Hb.
  - rewrite clean_old_anomalies_spec;
      try (rewrite !append_items, !length_skipn, !length_app;
           first
             [ rewrite Lay,
                 (overflow_same_length (anomaly_y st) (anomaly_x st))
                 by congruence
             | rewrite Lal,
                 (overflow_same_length (anomaly_labels st) (anomaly_x st))
                 by congruence ];
           reflexivity).
    rewrite !append_maxlen, !append_items.
    rewrite (overflow_same_length (anomaly_y st) (anomaly_x st)) by congruence.
    rewrite (overflow_same_length (anomaly_labels st) (anomaly_x st))
      by congruence.
    rewrite !skipn_skipn.
    eexists; split; [reflexivity|]. split.
    + constructor; simpl; try assumption.
      * rewrite observe_window, append_maxlen. exact Hw.
      * rewrite !length_skipn, !length_app, Ldy. reflexivity.
      * rewrite !length_skipn, !length_app, Lay. reflexivity.
      * rewrite !length_skipn, !length_app, Lal. reflexivity.
    + constructor; simpl; try reflexivity.
      * unfold evicted. f_equal. apply Nat.add_comm.
      * unfold evicted. f_equal. apply Nat.add_comm.
      * rewrite Hb. unfold evicted, pending.
        rewrite (Nat.add_comm (overflow (anomaly_x st))). fold t.
        repeat split; reflexivity.
  - rewrite clean_old_anomalies_spec by assumption.
    eexists; split; [reflexivity|]. split.
    + constructor; simpl; try assumption.
      * rewrite observe_window, append_maxlen. exact Hw.
      * rewrite !length_skipn, !length_app, Ldy. reflexivity.
      * rewrite !length_skipn, Lay. reflexivity.
      * rewrite !length_skipn, Lal. reflexivity.
    + constructor; simpl; try reflexivity.
      * unfold evicted. f_equal. apply Nat.add_comm.
      * unfold evicted. f_equal. apply Nat.add_comm.
      * rewrite Hb. unfold evicted, pending. fold t.
        rewrite !app_nil_r. simpl. repeat split; reflexivity.
Qed.

End Ticks.

(** ** Lists of timestamps *)

Lemma skipn_snoc {A : Type} (n : nat) (l : list A) (x : A) :
  (n <= length l)%nat -> skipn n (l ++ [x]) = skipn n l ++ [x].
Proof.
  intros H. rewrite skipn_app.
  replace (n - length l)%nat with 0%nat by lia. reflexivity.
Qed.

Lemma Forall_skipn' {A : Type} (P : A -> Prop) (n : nat) (l : list A) :
  Forall P l -> Forall P (skipn n l).
Proof.
  revert l. induction n as [|n IH]; intros l H; [exact H|].
  destruct H as [|x l _ H]; [constructor | apply IH, H].
Qed.

Lemma StronglySorted_skipn (n : nat) (l : list Z) :
  StronglySorted Z.le l -> StronglySorted Z.le (skipn n l).
Proof.
  revert l. induction n as [|n IH]; intros l H; [exact H|].
  destruct H as [|x l H _]; [constructor | apply IH, H].
Qed.

Lemma ordered_upto_snoc (t t' : Z) (l : list Z) :
  ordered_upto t l -> t <= t' -> ordered_upto t' (l ++ [t']).
Proof.
  intros [Hs Hb] Ht. split.
  - induction Hs as [|x l Hs IH Hx]; simpl.
    + constructor; constructor.
    + apply Forall_inv_tail in Hb as Hb'. apply Forall_inv in Hb.
      constructor; [apply IH, Hb'|].
      apply Forall_app; split; [exact Hx|].
      constructor; [lia | constructor].
  - apply Forall_app; split.
    + eapply Forall_impl; [|exact Hb]. simpl; intros; lia.
    + constructor; [lia | constructor].
Qed.

Lemma ordered_upto_later (t t' : Z) (l : list Z) :
  ordered_upto t l -> t <= t' -> ordered_upto t' l.
Proof.
  intros [Hs Hb] Ht. split; [exact Hs|].
  eapply Forall_impl; [|exact Hb]. simpl; intros; lia.
Qed.

Lemma ordered_upto_skipn (t : Z) (n : nat) (l : list Z) :
  ordered_upto t l -> ordered_upto t (skipn n l).
Proof.
  intros [Hs Hb].
  split; [apply StronglySorted_skipn | apply Forall_skipn']; assumption.
Qed.

Lemma overflow_le_length {A : Type} (d : deque A) (m : Z) :
  maxlen d = Some m -> 0 < m -> (overflow d <= length (items d))%nat.
Proof.
  intros Hm H0. unfold overflow, Deque.len. rewrite Hm.
  destruct (m <? _) eqn:E; [apply Z.ltb_lt in E | ]; lia.
Qed.

(** The entry appended in a tick outlives the evictions of that tick. *)
Lemma evicted_keeps_tail (l : list Z) (tr : nat) (t c : Z) :
  (tr <= length l)%nat -> c <= t ->
  (evicted (l ++ [t]) tr c <= length l)%nat.
Proof.
  intros Htr Hc. unfold evicted. rewrite skipn_snoc by exact Htr.
  pose proof (stale_keeps_fresh (skipn tr l) [] t c Hc) as H.
  rewrite length_skipn in H. lia.
Qed.

Lemma evicted_fresh (l : list Z) (tr : nat) (c : Z) :
  Forall (fun x => c <= x) (skipn tr l) -> evicted l tr c = tr.
Proof. intros H. unfold evicted. rewrite (stale_none _ _ H). lia. Qed.

Lemma stamps_S (k : nat) : stamps (S k) = stamps k ++ [Z.of_nat (S k)].
Proof. unfold stamps. rewrite seq_S, map_app. reflexivity. Qed.

Lemma stamps_length (k : nat) : length (stamps k) = k.
Proof. unfold stamps. rewrite length_map, length_seq. reflexivity. Qed.

Lemma stamps_skipn_fresh (k n : nat) :
  Forall (fun x => Z.of_nat n < x) (skipn n (stamps k)).
Proof.
  unfold stamps. rewrite skipn_map, skipn_seq.
  apply Forall_forall. intros x Hx.
  apply in_map_iff in Hx as (i & <- & Hi). apply in_seq in Hi. lia.
Qed.

(** ** Non-finite floats *)

Lemma SFeqb_finite_refl (s : bool) (m : positive) (e : Z) :
  SFeqb (S754_finite s m e) (S754_finite s m e) = true.
Proof.
  unfold SFeqb, SFcompare.
  rewrite Z.compare_refl, Pos.compare_cont_refl. destruct s; reflexivity.
Qed.

Lemma is_finite_spec (x : float) : is_finite x = sf_finite (Prim2SF x).
Proof.
  unfold is_finite, is_nan, is_infinity.
  rewrite !FloatAxioms.eqb_spec, FloatAxioms.abs_spec.
  change (Prim2SF infinity) with (S754_infinity false).
  destruct (Prim2SF x) as [s|s| |s m e]; try reflexivity.
  - destruct s; reflexivity.
  - rewrite SFeqb_finite_refl. reflexivity.
Qed.

Lemma is_infinity_spec (x : float) :
  is_infinity x = match Prim2SF x with S754_infinity _ => true | _ => false end.
Proof.
  unfold is_infinity. rewrite FloatAxioms.eqb_spec, FloatAxioms.abs_spec.
  change (Prim2SF infinity) with (S754_infinity false).
  destruct (Prim2SF x) as [s|s| |s m e]; reflexivity.
Qed.

(** Moving a mean towards a NaN or an infinity by a positive fraction of the
    distance leaves a NaN or an infinity. *)
Lemma blend_not_finite (m v k : float) :
  is_finite v = false -> sf_positive (Prim2SF k) = true ->
  is_finite (m + (v - m) / k) = false.
Proof.
  rewrite !is_finite_spec.
  rewrite FloatAxioms.add_spec, FloatAxioms.div_spec, FloatAxioms.sub_spec.
  destruct (Prim2SF v) as [sv|sv| |sv mv ev]; try discriminate;
    destruct (Prim2SF k) as [sk|sk| |[|] mk ek]; try discriminate;
    destruct (Prim2SF m) as [sm|sm| |sm mm em]; intros _ _; try reflexivity.
  all: destruct sv, sm; reflexivity.
Qed.

Lemma bounds_not_finite (v lo hi : float) :
  sf_finite (Prim2SF lo) = true -> sf_finite (Prim2SF hi) = true ->
  is_finite v = false ->
  ((v <? lo) || (hi <? v))%float = is_infinity v.
Proof.
  rewrite is_finite_spec, is_infinity_spec, !FloatAxioms.ltb_spec.
  destruct (Prim2SF v) as [sv|sv| |sv mv ev]; try discriminate;
    destruct (Prim2SF lo) as [sl|sl| |sl ml el]; try discriminate;
    destruct (Prim2SF hi) as [sh|sh| |sh mh eh]; try discriminate;
    intros _ _ _; try reflexivity; destruct sv; reflexivity.
Qed.

Lemma small_int_positive (z : Z) :
  1 <= z <= 41 -> sf_positive (Prim2SF (float_of_int z)) = true.
Proof.
  intros Hz.
  assert (Hall : forallb
                   (fun n => sf_positive (Prim2SF (float_of_int (Z.of_nat n))))
                   (seq 1 41) = true) by (vm_compute; reflexivity).
  rewrite forallb_forall in Hall. specialize (Hall (Z.to_nat z)).
  rewrite Z2Nat.id in Hall by lia. apply Hall, in_seq. lia.
Qed.

Lemma detect_anomaly_not_finite (v p : float) (flag : bool) :
  is_finite v = false -> detect_anomaly v p flag = flag || is_infinity v.
Proof.
  intros Hv. unfold detect_anomaly.
  rewrite (bounds_not_finite v (float_of_int LOWER_BOUND)
             (float_of_int UPPER_BOUND) eq_refl eq_refl Hv).
  destruct flag, (is_infinity v); reflexivity.
Qed.

(** A non-finite sample makes the running mean non-finite. *)
Lemma observe_not_finite (s : Stats) (v : float) :
  maxlen (window s) = Some WINDOW_SIZE ->
  Deque.len (window s) <= WINDOW_SIZE ->
  is_finite v = false ->
  is_finite (mean (observe s v)) = false.
Proof.
  intros Hm Hlen Hv.
  assert (Hn : Deque.len (Deque.append (window s) v) <= WINDOW_SIZE)
    by (apply append_length; [exact Hm | discriminate | exact Hlen]).
  unfold observe, update_mean_std; cbn [window mean].
  set (n := Deque.len (Deque.append (window s) v)) in *.
  assert (H0 : 0 <= n) by (unfold n, Deque.len; lia).
  destruct (n =? 0) eqn:E; cbn [mean]; [exact Hv|].
  apply Z.eqb_neq in E. apply blend_not_finite; [exact Hv|].
  apply small_int_positive. unfold WINDOW_SIZE in Hn. lia.
Qed.

(** ** Runs of the loop *)

Section Runs.

Variable format_2f : float -> string.

Lemma run_snoc (samples : list (float * bool)) :
  forall (st : LoopState) (sample : float * bool),
    run_anomaly_detection format_2f st (samples ++ [sample]) =
    match run_anomaly_detection format_2f st samples with
    | Some st' => tick format_2f st' sample
    | None => None
    end.
Proof.
  induction samples as [|s samples IH]; intros st sample; simpl.
  - destruct (tick format_2f st sample); reflexivity.
  - destruct (tick format_2f st s); [apply IH | reflexivity].
Qed.

Lemma wf_initial : wf initial_state.
Proof. constructor; reflexivity. Qed.

(** No run of the loop raises, and a property of the samples seen so far
    and the state that the ticks preserve holds after every run. *)
Lemma run_history (P : list (float * bool) -> LoopState -> Prop) :
  P [] initial_state ->
  (forall history st v flag st',
      wf st -> P history st ->
      tick_post format_2f st v flag st' ->
      P (history ++ [(v, flag)]) st') ->
  forall samples,
    exists st,
      run_anomaly_detection format_2f initial_state samples = Some st /\
      wf st /\ P samples st.
Proof.
  intros H0 Hstep samples.
  induction samples as [|[v flag] samples IH] using rev_ind.
  - exists initial_state.
    split; [reflexivity | split; [apply wf_initial | exact H0]].
  - destruct IH as (st & Hrun & Hwf & HP).
    destruct (tick_spec format_2f st v flag Hwf)
      as (st' & Htick & Hwf' & Hpost).
    exists st'. rewrite run_snoc, Hrun.
    split; [exact Htick | split; [exact Hwf'|]].
    exact (Hstep samples st v flag st' Hwf HP Hpost).
Qed.

Lemma run_total (samples : list (float * bool)) :
  forall st, wf st ->
    exists st', run_anomaly_detection format_2f st samples = Some st' /\ wf st'.
Proof.
  induction samples as [|[v flag] samples IH]; intros st Hwf;
    cbn [run_anomaly_detection].
  - exists st. split; [reflexivity | exact Hwf].
  - destruct (tick_spec format_2f st v flag Hwf) as (st' & -> & Hwf' & _).
    apply IH, Hwf'.
Qed.

(** The timestamps of both series stay in order. *)
Lemma run_ordered (samples : list (float * bool)) :
  exists st,
    run_anomaly_detection format_2f initial_state samples = Some st /\ wf st /\
    ordered_upto (current_time st) (items (data_x st)) /\
    ordered_upto (current_time st) (items (anomaly_x st)).
Proof.
  apply (run_history
           (fun _ st =>
              ordered_upto (current_time st) (items (data_x st)) /\
              ordered_upto (current_time st) (items (anomaly_x st)))).
  - split; split; constructor.
  - intros _ st v flag st' _ [Hd Ha] [_ _ Ht Hx _ Hax].
    destruct Hax as (Hax & _). rewrite Ht, Hx, Hax. split.
    + apply ordered_upto_skipn, (ordered_upto_snoc (current_time st));
        [exact Hd | lia].
    + apply ordered_upto_skipn.
      destruct (detect_anomaly v (previous_value st) flag); simpl.
      * apply (ordered_upto_snoc (current_time st)); [exact Ha | lia].
      * rewrite app_nil_r.
        apply (ordered_upto_later (current_time st)); [exact Ha | lia].
Qed.

(** C7: whatever samples the loop has processed, it has not raised, and the
    timestamps listed by the raw-data series and by the anomaly series are
    each in non-decreasing order. *)
Theorem snapshot_timestamps_nondecreasing (samples : list (float * bool)) :
  exists st,
    run_anomaly_detection format_2f initial_state samples = Some st /\
    StronglySorted Z.le (items (data_x st)) /\
    StronglySorted Z.le (items (anomaly_x st)).
Proof.
  destruct (run_ordered samples) as (st & Hrun & _ & [Hd _] & [Ha _]).
  exists st. auto.
Qed.

(** The anomaly deques never exceed their bound. *)
Lemma run_anomaly_bounded (samples : list (float * bool)) :
  exists st,
    run_anomaly_detection format_2f initial_state samples = Some st /\ wf st /\
    Deque.len (anomaly_x st) <= DISPLAY_DURATION.
Proof.
  apply (run_history
           (fun _ st => Deque.len (anomaly_x st) <= DISPLAY_DURATION)).
  - unfold Deque.len, DISPLAY_DURATION; simpl; lia.
  - intros _ st v flag st' Hwf Hlen [_ _ _ _ _ Hax].
    destruct Hax as (Hax & _). unfold Deque.len in *.
    rewrite Hax, length_skipn, length_app. unfold evicted, overflow, Deque.len.
    rewrite (wf_anomaly_x st Hwf).
    destruct (detect_anomaly v (previous_value st) flag); simpl (length _).
    + destruct (DISPLAY_DURATION <? _) eqn:E;
        [apply Z.ltb_lt in E | apply Z.ltb_ge in E]; lia.
    + lia.
Qed.

(** C8: whatever samples the loop has processed, anomalous at every tick or
    not, each of the three anomaly deques lists at most [DISPLAY_DURATION]
    = 40 entries; and any number of appends in a row to an empty deque of
    that bound leaves at most 40 items in it. *)
Theorem anomaly_series_capacity (samples : list (float * bool)) :
  (exists st,
      run_anomaly_detection format_2f initial_state samples = Some st /\
      Deque.len (anomaly_x st) <= 40 /\
      Deque.len (anomaly_y st) <= 40 /\
      Deque.len (anomaly_labels st) <= 40) /\
  (forall (A : Type) (entries : list A),
      Deque.len
        (fold_left Deque.append entries (Deque.empty (Some DISPLAY_DURATION)))
      <= 40).
Proof.
  split.
  - destruct (run_anomaly_bounded samples) as (st & Hrun & Hwf & Hlen).
    exists st. unfold Deque.len in *.
    rewrite (wf_anomaly_y_len st Hwf), (wf_anomaly_labels_len st Hwf).
    unfold DISPLAY_DURATION in Hlen. auto.
  - intros A entries.
    apply (append_all_bounded 40 entries); [reflexivity | lia | ].
    unfold Deque.len; simpl; lia.
Qed.

Lemma flagged_at_later (history : list (float * bool)) (sample : float * bool)
    (t : Z) (v : float) :
  flagged_at history t v -> flagged_at (history ++ [sample]) t v.
Proof.
  intros (Ht & flag & Hn & Hd). split; [exact Ht|]. exists flag.
  assert (Hlt : (Z.to_nat (t - 1) < length history)%nat)
    by (apply nth_error_Some; congruence).
  split.
  - rewrite nth_error_app1 by exact Hlt. exact Hn.
  - unfold previous_before in *. rewrite firstn_app.
    replace (Z.to_nat (t - 1) - length history)%nat with 0%nat by lia.
    simpl. rewrite app_nil_r. exact Hd.
Qed.

Lemma map_pending {A B : Type} (f : A -> B) (b : bool) (x : A) :
  map f (pending b x) = pending b (f x).
Proof. destruct b; reflexivity. Qed.

(** The three anomaly deques are the three columns of one list of
    records, each the sample of a tick classified as an anomaly. *)
Lemma run_anomaly_records (samples : list (float * bool)) :
  exists st,
    run_anomaly_detection format_2f initial_state samples = Some st /\ wf st /\
    (current_time st = Z.of_nat (length samples) /\
     previous_value st = previous_before samples (length samples) /\
     exists records : list (Z * float),
       items (anomaly_x st) = map fst records /\
       items (anomaly_y st) = map snd records /\
       items (anomaly_labels st) = map (fun r => format_2f (snd r)) records /\
       Forall (fun r => flagged_at samples (fst r) (snd r)) records).
Proof.
  apply (run_history
           (fun history st =>
              current_time st = Z.of_nat (length history) /\
              previous_value st = previous_before history (length history) /\
              exists records : list (Z * float),
                items (anomaly_x st) = map fst records /\
                items (anomaly_y st) = map snd records /\
                items (anomaly_labels st) =
                map (fun r => format_2f (snd r)) records /\
                Forall (fun r => flagged_at history (fst r) (snd r)) records)).
  - repeat split. exists []. repeat split. constructor.
  - intros history st v flag st' _ (Ht & Hp & records & Hx & Hy & Hl & Hrec)
      [_ Hp' Ht' _ _ Ha].
    destruct Ha as (Hax & Hay & Hal).
    split; [rewrite Ht', Ht, length_app; simpl; lia|].
    split.
    { rewrite Hp'. unfold previous_before.
      rewrite firstn_all, map_app. cbn [map fst].
      rewrite last_last. reflexivity. }
    set (b := detect_anomaly v (previous_value st) flag) in *.
    set (n := evicted _ _ _) in *.
    exists (skipn n (records ++ pending b (current_time st + 1, v))).
    rewrite Hax, Hay, Hal, Hx, Hy, Hl.
    rewrite <- !skipn_map, !map_app, !map_pending. simpl.
    repeat split.
    apply Forall_skipn', Forall_app. split.
    + eapply Forall_impl; [|exact Hrec].
      intros r Hr. apply flagged_at_later, Hr.
    + destruct b eqn:Hb; [|constructor].
      constructor; [|constructor]. simpl. split; [lia|]. exists flag.
      replace (Z.to_nat (current_time st + 1 - 1)) with (length history) by lia.
      split.
      * rewrite nth_error_app2, Nat.sub_diag by lia. reflexivity.
      * unfold previous_before. rewrite firstn_app, Nat.sub_diag. simpl.
        rewrite app_nil_r. fold (previous_before history (length history)).
        rewrite <- Hp. exact Hb.
Qed.

(** C10: after every tick of the loop the three anomaly deques have the
    same length, and at every index they hold the tick, the value and the
    rendered value of one sample, which the loop classified as an anomaly
    at that tick. *)
Theorem anomaly_deques_parallel (samples : list (float * bool)) :
  exists st,
    run_anomaly_detection format_2f initial_state samples = Some st /\
    Deque.len (anomaly_y st) = Deque.len (anomaly_x st) /\
    Deque.len (anomaly_labels st) = Deque.len (anomaly_x st) /\
    forall (i : nat) (t : Z),
      nth_error (items (anomaly_x st)) i = Some t ->
      exists v,
        nth_error (items (anomaly_y st)) i = Some v /\
        nth_error (items (anomaly_labels st)) i = Some (format_2f v) /\
        flagged_at samples t v.
Proof.
  destruct (run_anomaly_records samples)
    as (st & Hrun & Hwf & _ & _ & records & Hx & Hy & Hl & Hrec).
  exists st. split; [exact Hrun|]. unfold Deque.len.
  rewrite (wf_anomaly_y_len st Hwf), (wf_anomaly_labels_len st Hwf).
  split; [reflexivity | split; [reflexivity|]].
  intros i t Hi. rewrite Hx, nth_error_map in Hi.
  destruct (nth_error records i) as [[t' v]|] eqn:Hr; [|discriminate].
  injection Hi as ->. exists v.
  rewrite Hy, Hl, !nth_error_map, Hr.
  split; [reflexivity | split; [reflexivity|]].
  apply nth_error_In in Hr.
  rewrite Forall_forall in Hrec. apply (Hrec _ Hr).
Qed.

(** The raw-data series holds the last 40 ticks and their values: the
    capacity bound has dropped everything older before the cutoff is
    looked at. *)
Lemma run_raw_series (samples : list (float * bool)) :
  exists st,
    run_anomaly_detection format_2f initial_state samples = Some st /\ wf st /\
    (current_time st = Z.of_nat (length samples) /\
     items (data_x st) =
     skipn (length samples - 40) (stamps (length samples)) /\
     items (data_y st) = skipn (length samples - 40) (map fst samples)).
Proof.
  apply (run_history
           (fun history st =>
              current_time st = Z.of_nat (length history) /\
              items (data_x st) =
              skipn (length history - 40) (stamps (length history)) /\
              items (data_y st) =
              skipn (length history - 40) (map fst history))).
  - repeat split.
  - intros history st v flag st' Hwf (Ht & Hx & Hy) [_ _ Ht' Hx' Hy' _].
    set (k := length history) in *.
    assert (Hk : length (history ++ [(v, flag)]) = S k)
      by (rewrite length_app; simpl; lia).
    rewrite Hk.
    assert (Hov : (overflow (data_x st) + (k - 40) = S k - 40)%nat).
    { unfold overflow, Deque.len.
      rewrite (wf_data_x st Hwf), Hx, length_skipn, stamps_length.
      unfold DISPLAY_DURATION.
      destruct (40 <? _) eqn:E;
        [apply Z.ltb_lt in E | apply Z.ltb_ge in E]; lia. }
    assert (Hnew : items (data_x st) ++ [current_time st + 1] =
                   skipn (k - 40) (stamps (S k))).
    { rewrite Hx, stamps_S, skipn_snoc by (rewrite stamps_length; lia).
      f_equal. f_equal. lia. }
    assert (Hn : evicted (items (data_x st) ++ [current_time st + 1])
                   (overflow (data_x st))
                   (current_time st + 1 - WINDOW_SIZE) = overflow (data_x st)).
    { apply evicted_fresh. rewrite Hnew, skipn_skipn, Hov.
      eapply Forall_impl; [|apply stamps_skipn_fresh].
      simpl. unfold WINDOW_SIZE. intros x Hlt. lia. }
    rewrite Hn in Hx', Hy'.
    split; [lia|]. split.
    + rewrite Hx', Hnew, skipn_skipn, Hov. reflexivity.
    + rewrite Hy', Hy, map_app. simpl (map fst [_]).
      rewrite <- skipn_snoc by (rewrite length_map; lia).
      rewrite skipn_skipn, Hov. reflexivity.
Qed.

(** C4: after one sample at each of the ticks 1 to 50 the loop has not
    raised and the raw-data series lists the ticks 11 to 50 with their
    values: every listed timestamp is greater than 10, and none of the
    ticks 1 to 10 is listed. *)
Theorem raw_series_after_fifty_ticks (samples : list (float * bool)) :
  length samples = 50%nat ->
  exists st,
    run_anomaly_detection format_2f initial_state samples = Some st /\
    current_time st = 50 /\
    items (data_x st) = map Z.of_nat (seq 11 40) /\
    items (data_y st) = skipn 10 (map fst samples) /\
    Forall (fun t => 10 < t) (items (data_x st)) /\
    (forall t, 1 <= t <= 10 -> ~ In t (items (data_x st))).
Proof.
  intros Hlen.
  destruct (run_raw_series samples) as (st & Hrun & _ & Ht & Hx & Hy).
  rewrite Hlen in Ht, Hx, Hy.
  exists st. split; [exact Hrun|]. split; [exact Ht|].
  split; [exact Hx|]. split; [exact Hy|].
  assert (Hall : Forall (fun t => 10 < t) (items (data_x st))).
  { rewrite Hx. apply (stamps_skipn_fresh 50 10). }
  split; [exact Hall|].
  intros t Hlow Hin. rewrite Forall_forall in Hall.
  apply Hall in Hin. lia.
Qed.

(** C3, as the loop has it: the entry a tick appends is still the last one
    of its series when the tick ends.  This holds for the raw-data series
    at every tick, so that series is never emptied, and for the anomaly
    series at the ticks whose sample is classified as an anomaly. *)
Theorem appended_entry_survives_its_tick (samples : list (float * bool))
    (v : float) (flag : bool) :
  exists st st',
    run_anomaly_detection format_2f initial_state samples = Some st /\
    tick format_2f st (v, flag) = Some st' /\
    (exists xs ys,
        items (data_x st') = xs ++ [current_time st'] /\
        items (data_y st') = ys ++ [v]) /\
    (detect_anomaly v (previous_value st) flag = true ->
     exists xs ys ls,
       items (anomaly_x st') = xs ++ [current_time st'] /\
       items (anomaly_y st') = ys ++ [v] /\
       items (anomaly_labels st') = ls ++ [format_2f v]).
Proof.
  destruct (run_total samples initial_state wf_initial) as (st & Hrun & Hwf).
  destruct (tick_spec format_2f st v flag Hwf)
    as (st' & Htick & _ & [_ _ Ht Hx Hy Ha]).
  exists st, st'. split; [exact Hrun|]. split; [exact Htick|].
  assert (Hc : current_time st + 1 - WINDOW_SIZE <= current_time st + 1)
    by (unfold WINDOW_SIZE; lia).
  split.
  - pose proof (evicted_keeps_tail (items (data_x st)) (overflow (data_x st))
                  _ _ (overflow_le_length _ _ (wf_data_x st Hwf) eq_refl) Hc)
      as Hn.
    rewrite Ht, Hx, Hy.
    rewrite !skipn_snoc by (rewrite ?(wf_data_len st Hwf); exact Hn).
    do 2 eexists. split; reflexivity.
  - intros Hb. rewrite Hb in Ha. simpl in Ha. destruct Ha as (Hax & Hay & Hal).
    pose proof (evicted_keeps_tail (items (anomaly_x st))
                  (overflow (anomaly_x st)) _ _
                  (overflow_le_length _ _ (wf_anomaly_x st Hwf) eq_refl) Hc)
      as Hn.
    rewrite Ht, Hax, Hay, Hal.
    rewrite !skipn_snoc
      by (rewrite ?(wf_anomaly_y_len st Hwf), ?(wf_anomaly_labels_len st Hwf);
          exact Hn).
    do 3 eexists. split; [|split]; reflexivity.
Qed.

(** The window of the statistics never exceeds its bound. *)
Lemma run_window_bounded (samples : list (float * bool)) :
  exists st,
    run_anomaly_detection format_2f initial_state samples = Some st /\ wf st /\
    Deque.len (window (stats st)) <= WINDOW_SIZE.
Proof.
  apply (run_history
           (fun _ st => Deque.len (window (stats st)) <= WINDOW_SIZE)).
  - unfold Deque.len, WINDOW_SIZE; simpl; lia.
  - intros _ st v flag st' Hwf Hlen [Hs _ _ _ _ _].
    rewrite Hs, observe_window.
    apply append_length; [apply (wf_window st Hwf) | discriminate | exact Hlen].
Qed.

(** C2, as the loop has it: a NaN or an infinity is processed like any
    other sample.  The tick does not raise; the value enters the window and
    the running mean is no longer finite afterwards; a NaN is classified as
    an anomaly only when the producer flagged it, an infinity always; and
    the loop goes on with the samples that follow. *)
Theorem non_finite_sample_is_processed (samples : list (float * bool))
    (v : float) (flag : bool) :
  is_finite v = false ->
  exists st st',
    run_anomaly_detection format_2f initial_state samples = Some st /\
    tick format_2f st (v, flag) = Some st' /\
    window (stats st') = Deque.append (window (stats st)) v /\
    is_finite (mean (stats st')) = false /\
    detect_anomaly v (previous_value st) flag = flag || is_infinity v /\
    forall more,
    exists st'', run_anomaly_detection format_2f st' more = Some st''.
Proof.
  intros Hv.
  destruct (run_window_bounded samples) as (st & Hrun & Hwf & Hlen).
  destruct (tick_spec format_2f st v flag Hwf)
    as (st' & Htick & Hwf' & [Hs _ _ _ _ _]).
  exists st, st'. split; [exact Hrun|]. split; [exact Htick|].
  split; [rewrite Hs; apply observe_window|].
  split; [rewrite Hs; apply observe_not_finite;
          [apply (wf_window st Hwf) | exact Hlen | exact Hv]|].
  split; [apply detect_anomaly_not_finite, Hv|].
  intros more. destruct (run_total more st' Hwf') as (st'' & Hmore & _).
  exists st''. exact Hmore.
Qed.

(** What the first tick leaves in the statistics: the window already holds
    the sample when the update reads its length, so the update takes the
    branch written for later samples. *)
Lemma first_tick_stats (v : float) (flag : bool) :
  exists st,
    tick format_2f initial_state (v, flag) = Some st /\
    mean (stats st) = (0 + (v - 0) / 2)%float /\
    std_dev (stats st) = 1%float.
Proof.
  destruct (tick_spec format_2f initial_state v flag wf_initial)
    as (st & Htick & _ & [Hs _ _ _ _ _]).
  exists st. split; [exact Htick|]. rewrite Hs. split; reflexivity.
Qed.

(** C1, on the code: the first tick of the loop leaves the mean half-way
    between 0 and the sample and the deviation at 1, not at the sample and
    0; with the samples 5.0 and 7.0 the second tick leaves the deviation
    at the square root of 7.25, not at 1.  Called on the empty window, the
    update alone does set the mean to the sample and the deviation to 0. *)
Theorem first_updates_in_the_loop :
  (forall v flag,
      exists st,
        tick format_2f initial_state (v, flag) = Some st /\
        mean (stats st) = (0 + (v - 0) / 2)%float /\
        std_dev (stats st) = 1%float) /\
  option_map (fun st => (mean (stats st), std_dev (stats st)))
    (run_anomaly_detection format_2f initial_state [(5, false)]%float)
  = Some (2.5, 1)%float /\
  option_map (fun st => std_dev (stats st))
    (run_anomaly_detection format_2f initial_state
       [(5, false); (7, false)]%float)
  = Some (PrimFloat.sqrt 7.25) /\
  (PrimFloat.sqrt 7.25 =? 1)%float = false /\
  (forall v,
      mean (update_mean_std initial_stats v) = v /\
      std_dev (update_mean_std initial_stats v) = 0%float).
Proof.
  split; [exact first_tick_stats|].
  split; [vm_compute; reflexivity|].
  split; [vm_compute; reflexivity|].
  split; [vm_compute; reflexivity|].
  intros v. split; reflexivity.
Qed.

(** C5, on the code: one copy of a constant [v] leaves the mean half-way
    between 0 and [v]; one copy of 5.0 leaves it at 2.5, two copies at 10/3,
    and for no number of copies from 1 to 100 does the mean compare equal
    to 5.0. *)
Theorem constant_feed_mean :
  (forall v flag,
      exists st,
        run_anomaly_detection format_2f initial_state (repeat (v, flag) 1)
        = Some st /\
        mean (stats st) = (0 + (v - 0) / 2)%float) /\
  option_map (fun st => mean (stats st))
    (run_anomaly_detection format_2f initial_state (repeat (5, false) 1)%float)
  = Some 2.5%float /\
  option_map (fun st => mean (stats st))
    (run_anomaly_detection format_2f initial_state (repeat (5, false) 2)%float)
  = Some (2.5 + (5 - 2.5) / 3)%float /\
  forallb
    (fun n =>
       match run_anomaly_detection format_2f initial_state
               (repeat (5, false) n)%float with
       | Some st => negb (mean (stats st) =? 5)%float
       | None => false
       end)
    (seq 1 100) = true.
Proof.
  split.
  { intros v flag. destruct (first_tick_stats v flag) as (st & Htick & Hm & _).
    exists st. cbn [repeat run_anomaly_detection]. rewrite Htick. auto. }
  split; [vm_compute; reflexivity|].
  split; [vm_compute; reflexivity|].
  vm_compute; reflexivity.
Qed.

End Runs.

(** ** The classifier *)

Lemma detect_anomaly_unfold (v p : float) (flag : bool) :
  detect_anomaly v p flag = flag || ((v <? -20) || (20 <? v))%float.
Proof.
  unfold detect_anomaly. destruct flag; [reflexivity|].
  match goal with |- (if ?c then _ else _) = _ => destruct c eqn:E end;
    symmetry; exact E.
Qed.

(** C6: the classifier answers true for 21 and for -21 without the flag,
    false for 0 without the flag and true for 0 with the flag; in general
    the flag forces true, and without it the answer is true exactly when
    the value is strictly below -20 or strictly above 20. *)
Theorem classifier_decision :
  (forall p, detect_anomaly 21 p false = true) /\
  (forall p, detect_anomaly (-21) p false = true) /\
  (forall p, detect_anomaly 0 p false = false) /\
  (forall p, detect_anomaly 0 p true = true) /\
  (forall v p, detect_anomaly v p true = true) /\
  (forall v p,
      detect_anomaly v p false = true <->
      (v <? float_of_int LOWER_BOUND)%float = true \/
      (float_of_int UPPER_BOUND <? v)%float = true) /\
  float_of_int LOWER_BOUND = (-20)%float /\
  float_of_int UPPER_BOUND = 20%float.
Proof.
  do 5 (split; [intros; reflexivity|]).
  split; [|split; reflexivity].
  intros v p. rewrite detect_anomaly_unfold. simpl. apply orb_true_iff.
Qed.

(** C9: two calls of the classifier that differ only in the previous value
    return the same result. *)
Theorem previous_value_is_ignored (v p1 p2 : float) (flag : bool) :
  detect_anomaly v p1 flag = detect_anomaly v p2 flag.
Proof. reflexivity. Qed.

(** ** Concrete runs, with Python's rendering of the labels *)

(** The scenario of the specification: 5.0 unflagged, then 25.0 flagged. *)
Example two_tick_scenario :
  option_map
    (fun st => (items (data_x st), items (data_y st),
                items (anomaly_x st), items (anomaly_y st),
                items (anomaly_labels st)))
    (run_anomaly_detection python_format_2f initial_state
       [(5, false); (25, true)]%float)
  = Some ([1; 2], [5; 25]%float, [2], [25]%float, ["25.00"%string]).
Proof. vm_compute. reflexivity. Qed.

Lemma raw_series_after_fifty_ticks_witness :
  length fifty_samples = 50%nat /\
  exists st,
    run_anomaly_detection python_format_2f initial_state fifty_samples
    = Some st /\
    current_time st = 50 /\
    items (data_x st) = map Z.of_nat (seq 11 40) /\
    items (data_y st) = skipn 10 (map fst fifty_samples) /\
    Forall (fun t => 10 < t) (items (data_x st)) /\
    (forall t, 1 <= t <= 10 -> ~ In t (items (data_x st))).
Proof.
  split; [reflexivity|].
  apply (raw_series_after_fifty_ticks python_format_2f fifty_samples).
  reflexivity.
Defined.

Lemma non_finite_sample_is_processed_witness :
  is_finite infinity = false /\
  exists st st',
    run_anomaly_detection python_format_2f initial_state [(5, false)]%float
    = Some st /\
    tick python_format_2f st (infinity, false) = Some st' /\
    window (stats st') = Deque.append (window (stats st)) infinity /\
    is_finite (mean (stats st')) = false /\
    detect_anomaly infinity (previous_value st) false
    = false || is_infinity infinity /\
    forall more,
    exists st'', run_anomaly_detection python_format_2f st' more = Some st''.
Proof.
  split; [reflexivity|].
  apply (non_finite_sample_is_processed python_format_2f
           [(5, false)]%float infinity false).
  reflexivity.
Defined.

(** C2, as stated, fails at the sample +Infinity, unflagged, on the first
    tick: the statistics are updated (the mean goes from 0 to +Infinity and
    the window receives the sample) and the sample is classified as an
    anomaly. *)
Lemma infinite_sample_updates_and_is_flagged :
  exists st',
    tick python_format_2f initial_state (infinity, false) = Some st' /\
    mean (stats st') = infinity /\
    mean (stats st') <> mean (stats initial_state) /\
    items (window (stats st')) = [infinity] /\
    detect_anomaly infinity (previous_value initial_state) false = true.
Proof.
  eexists. split; [vm_compute; reflexivity|]. cbn [stats mean window items].
  repeat split. intros H. apply (f_equal is_infinity) in H.
  vm_compute in H. discriminate H.
Qed.

(** C3, as stated, fails for the anomaly series: after tick 41 the series
    still lists the entry appended at tick 1, its most recent one, and the
    eviction of tick 42 removes it and leaves the series empty. *)
Lemma anomaly_tail_is_evicted :
  option_map (fun st => (current_time st, items (anomaly_x st)))
    (run_anomaly_detection python_format_2f initial_state (lone_anomaly 40))
  = Some (41, [1]) /\
  option_map
    (fun st => (current_time st, items (anomaly_x st), items (anomaly_y st),
                items (anomaly_labels st)))
    (run_anomaly_detection python_format_2f initial_state (lone_anomaly 41))
  = Some (42, [], [], []).
Proof. vm_compute. split; reflexivity. Qed.

(** * Further properties of the code *)

(** ** [clean_old_data] and the inline eviction of anomalies *)

Lemma stale_sorted_filter (xs : list Z) (c : Z) :
  StronglySorted Z.le xs ->
  skipn (stale xs c) xs = filter (fun x => c <=? x) xs.
Proof.
  induction 1 as [|x xs Hs IH Hx]; simpl; [reflexivity|].
  destruct (x <? c) eqn:E.
  - apply Z.ltb_lt in E. replace (c <=? x) with false by (symmetry; lia).
    exact IH.
  - apply Z.ltb_ge in E. replace (c <=? x) with true by (symmetry; lia).
    simpl. f_equal. symmetry. apply forallb_filter_id, forallb_forall.
    rewrite Forall_forall in Hx. intros y Hy. apply Hx in Hy. lia.
Qed.

Lemma stale_sorted_filter_pairs {A : Type} (xs : list Z) (c : Z) :
  StronglySorted Z.le xs ->
  forall ys : list A,
    combine (skipn (stale xs c) xs) (skipn (stale xs c) ys) =
    filter (fun p => c <=? fst p) (combine xs ys).
Proof.
  induction 1 as [|x xs Hs IH Hx]; intros ys; simpl; [reflexivity|].
  destruct (x <? c) eqn:E.
  - apply Z.ltb_lt in E. destruct ys as [|y ys]; simpl.
    + destruct (skipn _ xs); reflexivity.
    + replace (c <=? x) with false by (symmetry; lia). apply IH.
  - apply Z.ltb_ge in E. destruct ys as [|y ys]; simpl; [reflexivity|].
    replace (c <=? x) with true by (symmetry; lia).
    f_equal. symmetry. apply forallb_filter_id, forallb_forall.
    intros [x' y'] Hin. apply in_combine_l in Hin.
    rewrite Forall_forall in Hx. apply Hx in Hin. simpl. lia.
Qed.

Lemma stale_later_cutoff (xs : list Z) (c1 c2 : Z) :
  c1 <= c2 ->
  (stale (skipn (stale xs c1) xs) c2 + stale xs c1 = stale xs c2)%nat.
Proof.
  intros Hc. induction xs as [|x xs IH]; simpl; [reflexivity|].
  destruct (x <? c1) eqn:E1.
  - apply Z.ltb_lt in E1. replace (x <? c2) with true by (symmetry; lia).
    simpl. lia.
  - simpl. lia.
Qed.

Lemma clean_loop_short (xs : list Z) :
  forall (m : option Z) (dy : deque float) (t : Z),
    (length (items dy) < stale xs (t - WINDOW_SIZE))%nat ->
    clean_loop xs m dy t = None.
Proof.
  induction xs as [|x xs IH]; intros m [ys my] t Hlen; simpl in *; [lia|].
  destruct (x <? t - WINDOW_SIZE); [|lia].
  destruct ys as [|y ys]; [reflexivity|].
  unfold Deque.popleft; simpl. apply IH. simpl in *. lia.
Qed.

(** X1: on time-ordered timestamps with one value each, [clean_old_data]
    keeps exactly the entries whose timestamp is not older than
    [current_time - WINDOW_SIZE], timestamps and values still paired, and
    both deques keep their bound. *)
Theorem clean_old_data_keeps_recent (dx : deque Z) (dy : deque float) (t : Z) :
  length (items dy) = length (items dx) ->
  StronglySorted Z.le (items dx) ->
  items (fst (clean_old_data dx dy t)) =
  filter (fun x => t - WINDOW_SIZE <=? x) (items dx) /\
  combine (items (fst (clean_old_data dx dy t)))
    (items (snd (clean_old_data dx dy t))) =
  filter (fun p => t - WINDOW_SIZE <=? fst p) (combine (items dx) (items dy)) /\
  length (items (snd (clean_old_data dx dy t))) =
  length (items (fst (clean_old_data dx dy t))) /\
  maxlen (fst (clean_old_data dx dy t)) = maxlen dx /\
  maxlen (snd (clean_old_data dx dy t)) = maxlen dy.
Proof.
  intros Hlen Hs. rewrite clean_old_data_spec by exact Hlen.
  cbn [fst snd items maxlen].
  split; [apply stale_sorted_filter, Hs|].
  split; [apply stale_sorted_filter_pairs, Hs|].
  split; [rewrite !length_skipn, Hlen; reflexivity|].
  split; reflexivity.
Qed.

Lemma clean_old_data_keeps_recent_witness :
  (length (items example_data_y) = length (items example_data_x) /\
   StronglySorted Z.le (items example_data_x)) /\
  items (fst (clean_old_data example_data_x example_data_y 90)) =
  filter (fun x => 90 - WINDOW_SIZE <=? x) (items example_data_x) /\
  combine (items (fst (clean_old_data example_data_x example_data_y 90)))
    (items (snd (clean_old_data example_data_x example_data_y 90))) =
  filter (fun p => 90 - WINDOW_SIZE <=? fst p)
    (combine (items example_data_x) (items example_data_y)) /\
  length (items (snd (clean_old_data example_data_x example_data_y 90))) =
  length (items (fst (clean_old_data example_data_x example_data_y 90))) /\
  maxlen (fst (clean_old_data example_data_x example_data_y 90)) =
  maxlen example_data_x /\
  maxlen (snd (clean_old_data example_data_x example_data_y 90)) =
  maxlen example_data_y.
Proof.
  assert (Hs : StronglySorted Z.le (items example_data_x))
    by (repeat constructor; lia).
  split; [split; [reflexivity | exact Hs]|].
  apply (clean_old_data_keeps_recent example_data_x example_data_y 90);
    [reflexivity | exact Hs].
Defined.

(** X2: when [data_y] holds fewer items than [data_x] has leading entries
    older than the cutoff, [data_y.popleft()] raises inside [clean_old_data],
    whose handler answers with two new empty deques: every entry is gone,
    and so is the bound of the deques. *)
Theorem clean_old_data_short_values (dx : deque Z) (dy : deque float) (t : Z) :
  (length (items dy) < stale (items dx) (t - WINDOW_SIZE))%nat ->
  clean_old_data dx dy t = (Deque.empty None, Deque.empty None).
Proof.
  intros Hlen. unfold clean_old_data.
  destruct (items dx) as [|x xs] eqn:E; [simpl in Hlen; lia|].
  rewrite clean_loop_short by exact Hlen. reflexivity.
Qed.

Lemma clean_old_data_short_values_witness :
  (length (items example_short_y)
   < stale (items example_data_x) (90 - WINDOW_SIZE))%nat /\
  clean_old_data example_data_x example_short_y 90
  = (Deque.empty None, Deque.empty None).
Proof.
  assert (Hlen : (length (items example_short_y)
                  < stale (items example_data_x) (90 - WINDOW_SIZE))%nat)
    by (vm_compute; lia).
  split; [exact Hlen|].
  apply (clean_old_data_short_values example_data_x example_short_y 90 Hlen).
Defined.

(** X3: cleaning at a time and then again at the same or a later time gives
    what cleaning once at the later time gives. *)
Theorem clean_old_data_twice (dx : deque Z) (dy : deque float) (t1 t2 : Z) :
  length (items dy) = length (items dx) ->
  t1 <= t2 ->
  clean_old_data (fst (clean_old_data dx dy t1))
    (snd (clean_old_data dx dy t1)) t2
  = clean_old_data dx dy t2.
Proof.
  intros Hlen Ht.
  rewrite (clean_old_data_spec dx dy t1) by exact Hlen. cbn [fst snd].
  rewrite clean_old_data_spec
    by (cbn [items]; rewrite !length_skipn, Hlen; reflexivity).
  rewrite (clean_old_data_spec dx dy t2) by exact Hlen.
  cbn [items maxlen]. rewrite !skipn_skipn.
  rewrite (stale_later_cutoff (items dx) (t1 - WINDOW_SIZE) (t2 - WINDOW_SIZE))
    by lia.
  reflexivity.
Qed.

Lemma clean_old_data_twice_witness :
  (length (items example_data_y) = length (items example_data_x) /\
   45 <= 95) /\
  clean_old_data (fst (clean_old_data example_data_x example_data_y 45))
    (snd (clean_old_data example_data_x example_data_y 45)) 95
  = clean_old_data example_data_x example_data_y 95.
Proof.
  split; [split; [reflexivity | lia]|].
  apply (clean_old_data_twice example_data_x example_data_y 45 95);
    [reflexivity | lia].
Defined.

(** X4: [clean_old_data] returns both deques as they are when [data_x] is
    empty or its first timestamp is not older than the cutoff, whatever
    [data_y] holds. *)
Theorem clean_old_data_fresh_head (dx : deque Z) (dy : deque float) (t : Z) :
  (forall x, hd_error (items dx) = Some x -> t - WINDOW_SIZE <= x) ->
  clean_old_data dx dy t = (dx, dy).
Proof.
  intros Hhd. unfold clean_old_data.
  destruct dx as [[|x xs] m]; cbn [items maxlen clean_loop]; [reflexivity|].
  specialize (Hhd x eq_refl).
  replace (x <? t - WINDOW_SIZE) with false by (symmetry; lia).
  reflexivity.
Qed.

Lemma clean_old_data_fresh_head_witness :
  (forall x,
      hd_error (items (Deque.mk [55; 3] (Some 40))) = Some x ->
      90 - WINDOW_SIZE <= x) /\
  clean_old_data (Deque.mk [55; 3] (Some 40)) (Deque.mk [] None) 90
  = (Deque.mk [55; 3] (Some 40), Deque.mk [] None).
Proof.
  assert (Hhd : forall x,
             hd_error (items (Deque.mk [55; 3] (Some 40))) = Some x ->
             90 - WINDOW_SIZE <= x).
  { intros x Hx. injection Hx as <-. unfold WINDOW_SIZE. lia. }
  split; [exact Hhd|].
  apply (clean_old_data_fresh_head _ _ 90 Hhd).
Defined.

(** X5: the eviction written inline for the anomalies raises exactly when
    [anomaly_y] or [anomaly_labels] holds fewer items than [anomaly_x] has
    leading entries older than the cutoff. *)
Theorem clean_old_anomalies_raises (xs : list Z) (m : option Z)
    (ay : deque float) (al : deque string) (t : Z) :
  clean_old_anomalies xs m ay al t = None <->
  (length (items ay) < stale xs (t - WINDOW_SIZE))%nat \/
  (length (items al) < stale xs (t - WINDOW_SIZE))%nat.
Proof.
  revert ay al.
  induction xs as [|x xs IH]; intros [ys my] [ls ml]; simpl.
  - split; [discriminate | lia].
  - destruct (x <? t - WINDOW_SIZE).
    + destruct ys as [|y ys]; unfold Deque.popleft; simpl.
      * split; [lia | reflexivity].
      * destruct ls as [|l ls]; simpl.
        -- split; [lia | reflexivity].
        -- rewrite IH. simpl. lia.
    + split; [discriminate | lia].
Qed.

(** ** Invariants of the main loop *)

Lemma StronglySorted_lt_le (l : list Z) :
  StronglySorted Z.lt l -> StronglySorted Z.le l.
Proof.
  induction 1 as [|x l Hs IH Hx]; constructor; [exact IH|].
  eapply Forall_impl; [|exact Hx]. simpl; intros; lia.
Qed.

Lemma StronglySorted_lt_skipn (n : nat) (l : list Z) :
  StronglySorted Z.lt l -> StronglySorted Z.lt (skipn n l).
Proof.
  revert l. induction n as [|n IH]; intros l H; [exact H|].
  destruct H as [|x l H _]; [constructor | apply IH, H].
Qed.

Lemma StronglySorted_lt_snoc (l : list Z) (t : Z) :
  StronglySorted Z.lt l -> Forall (fun x => x < t) l ->
  StronglySorted Z.lt (l ++ [t]).
Proof.
  induction 1 as [|x l Hs IH Hx]; intros Hb; simpl.
  - constructor; constructor.
  - apply Forall_inv_tail in Hb as Hb'. apply Forall_inv in Hb.
    constructor; [apply IH, Hb'|].
    apply Forall_app; split; [exact Hx|]. constructor; [exact Hb | constructor].
Qed.

(** On ordered timestamps the eviction leaves nothing older than the
    cutoff. *)
Lemma stale_skipn_fresh (l : list Z) (c : Z) :
  StronglySorted Z.le l -> Forall (fun x => c <= x) (skipn (stale l c) l).
Proof.
  induction 1 as [|x l Hs IH Hx]; simpl; [constructor|].
  destruct (x <? c) eqn:E; [exact IH|].
  apply Z.ltb_ge in E. simpl. constructor; [exact E|].
  eapply Forall_impl; [|exact Hx]. simpl; intros; lia.
Qed.

(** What the eviction removes is older than the cutoff. *)
Lemma stale_firstn_old (l : list Z) (c : Z) :
  Forall (fun x => x < c) (firstn (stale l c) l).
Proof.
  induction l as [|x l IH]; simpl; [constructor|].
  destruct (x <? c) eqn:E; [|constructor].
  apply Z.ltb_lt in E. simpl. constructor; assumption.
Qed.

Lemma fresh_increasing_step (t : Z) (l : list Z) (b : bool) (tr : nat) :
  fresh_increasing t l ->
  fresh_increasing (t + 1)
    (skipn (evicted (l ++ pending b (t + 1)) tr (t + 1 - WINDOW_SIZE))
       (l ++ pending b (t + 1))).
Proof.
  intros [Hs Hb].
  assert (Hs' : StronglySorted Z.lt (l ++ pending b (t + 1))).
  { destruct b; simpl; [|rewrite app_nil_r; exact Hs].
    apply StronglySorted_lt_snoc; [exact Hs|].
    eapply Forall_impl; [|exact Hb]. simpl; intros; lia. }
  assert (Hb' : Forall (fun x => x <= t + 1) (l ++ pending b (t + 1))).
  { apply Forall_app; split.
    - eapply Forall_impl; [|exact Hb]. simpl; intros; lia.
    - destruct b; simpl; repeat constructor; lia. }
  unfold evicted. rewrite Nat.add_comm, <- skipn_skipn.
  set (l' := skipn tr (l ++ pending b (t + 1))).
  assert (Hl' : StronglySorted Z.lt l') by apply StronglySorted_lt_skipn, Hs'.
  split; [apply StronglySorted_lt_skipn, Hl'|].
  pose proof (stale_skipn_fresh l' (t + 1 - WINDOW_SIZE)
                (StronglySorted_lt_le l' Hl')) as Hlo.
  assert (Hhi : Forall (fun x => x <= t + 1)
                  (skipn (stale l' (t + 1 - WINDOW_SIZE)) l'))
    by (do 2 apply Forall_skipn'; exact Hb').
  rewrite Forall_forall in *. intros x Hx. split; auto.
Qed.

Section MoreRuns.

Variable format_2f : float -> string.

Lemma run_unique (samples : list (float * bool)) (st1 st2 : LoopState) :
  run_anomaly_detection format_2f initial_state samples = Some st1 ->
  run_anomaly_detection format_2f initial_state samples = Some st2 ->
  st1 = st2.
Proof. congruence. Qed.

(** [run_history], with a property of the runs already known at hand. *)
Lemma run_history_with (Q P : list (float * bool) -> LoopState -> Prop) :
  (forall samples,
      exists st,
        run_anomaly_detection format_2f initial_state samples = Some st /\
        Q samples st) ->
  P [] initial_state ->
  (forall history st v flag st',
      wf st -> Q history st -> P history st ->
      tick_post format_2f st v flag st' ->
      P (history ++ [(v, flag)]) st') ->
  forall samples,
    exists st,
      run_anomaly_detection format_2f initial_state samples = Some st /\
      wf st /\ Q samples st /\ P samples st.
Proof.
  intros HQ H0 Hstep samples.
  induction samples as [|[v flag] samples IH] using rev_ind.
  - exists initial_state. destruct (HQ []) as (st0 & Hrun0 & HQ0).
    injection Hrun0 as <-.
    split; [reflexivity|]. split; [apply wf_initial|]. split; assumption.
  - destruct IH as (st & Hrun & Hwf & HQst & HP).
    destruct (tick_spec format_2f st v flag Hwf)
      as (st' & Htick & Hwf' & Hpost).
    assert (Hrun' : run_anomaly_detection format_2f initial_state
                      (samples ++ [(v, flag)]) = Some st')
      by (rewrite run_snoc, Hrun; exact Htick).
    exists st'. split; [exact Hrun'|]. split; [exact Hwf'|]. split.
    + destruct (HQ (samples ++ [(v, flag)])) as (st2 & Hrun2 & HQ2).
      rewrite (run_unique _ _ _ Hrun' Hrun2). exact HQ2.
    + exact (Hstep samples st v flag st' Hwf HQst HP Hpost).
Qed.

(** X6: the loop never raises out of its evictions, whatever the samples;
    after every tick all five display deques and the window of the
    statistics still have their bound of 40, [data_y] is as long as
    [data_x], and [anomaly_y] and [anomaly_labels] are as long as
    [anomaly_x]. *)
Theorem loop_keeps_deques_aligned (samples : list (float * bool)) :
  exists st,
    run_anomaly_detection format_2f initial_state samples = Some st /\
    (maxlen (window (stats st)) = Some 40 /\
     maxlen (data_x st) = Some 40 /\ maxlen (data_y st) = Some 40 /\
     maxlen (anomaly_x st) = Some 40 /\ maxlen (anomaly_y st) = Some 40 /\
     maxlen (anomaly_labels st) = Some 40) /\
    Deque.len (data_y st) = Deque.len (data_x st) /\
    Deque.len (anomaly_y st) = Deque.len (anomaly_x st) /\
    Deque.len (anomaly_labels st) = Deque.len (anomaly_x st).
Proof.
  destruct (run_total format_2f samples initial_state wf_initial)
    as (st & Hrun & [H1 H2 H3 H4 H5 H6 H7 H8 H9]).
  exists st. split; [exact Hrun|]. unfold Deque.len.
  rewrite H7, H8, H9. repeat split; assumption.
Qed.

(** X7: after the loop has processed [k] samples the tick counter is [k]
    and [previous_value] is the value of the last sample (0 before the
    first). *)
Theorem counter_and_previous_value (samples : list (float * bool)) :
  exists st,
    run_anomaly_detection format_2f initial_state samples = Some st /\
    current_time st = Z.of_nat (length samples) /\
    previous_value st = last (map fst samples) 0%float.
Proof.
  destruct (run_anomaly_records format_2f samples)
    as (st & Hrun & _ & Ht & Hp & _).
  exists st. split; [exact Hrun|]. split; [exact Ht|].
  rewrite Hp. unfold previous_before. rewrite firstn_all. reflexivity.
Qed.

(** Both series list increasing timestamps within the retention window. *)
Lemma run_fresh_increasing (samples : list (float * bool)) :
  exists st,
    run_anomaly_detection format_2f initial_state samples = Some st /\
    wf st /\
    fresh_increasing (current_time st) (items (data_x st)) /\
    fresh_increasing (current_time st) (items (anomaly_x st)).
Proof.
  apply (run_history format_2f
           (fun _ st =>
              fresh_increasing (current_time st) (items (data_x st)) /\
              fresh_increasing (current_time st) (items (anomaly_x st)))).
  - split; split; constructor.
  - intros _ st v flag st' _ [Hd Ha] [_ _ Ht Hx _ Hax].
    destruct Hax as (Hax & _). rewrite Ht, Hx, Hax. split.
    + apply (fresh_increasing_step (current_time st) _ true), Hd.
    + apply fresh_increasing_step, Ha.
Qed.

(** X8: after every tick the timestamps listed by the raw-data series and
    by the anomaly series are strictly increasing: no tick is listed
    twice. *)
Theorem snapshot_timestamps_increasing (samples : list (float * bool)) :
  exists st,
    run_anomaly_detection format_2f initial_state samples = Some st /\
    StronglySorted Z.lt (items (data_x st)) /\
    StronglySorted Z.lt (items (anomaly_x st)).
Proof.
  destruct (run_fresh_increasing samples) as (st & Hrun & _ & [Hd _] & [Ha _]).
  exists st. auto.
Qed.

(** X9: after every tick each listed raw-data entry is less than
    [WINDOW_SIZE] = 40 ticks old, and each listed anomaly is at most 40
    ticks old; no listed timestamp is later than the tick counter. *)
Theorem snapshot_entries_are_recent (samples : list (float * bool)) :
  exists st,
    run_anomaly_detection format_2f initial_state samples = Some st /\
    Forall (fun t => current_time st - 40 < t <= current_time st)
      (items (data_x st)) /\
    Forall (fun t => current_time st - 40 <= t <= current_time st)
      (items (anomaly_x st)).
Proof.
  destruct (run_fresh_increasing samples)
    as (st & Hrun & _ & [_ Hd] & [_ Ha]).
  destruct (run_raw_series format_2f samples)
    as (st2 & Hrun2 & _ & Ht & Hx & _).
  rewrite <- (run_unique _ _ _ Hrun Hrun2) in Ht, Hx.
  exists st. split; [exact Hrun|]. split; [|exact Ha].
  pose proof (stamps_skipn_fresh (length samples) (length samples - 40)) as Hlo.
  rewrite <- Hx in Hlo. rewrite Forall_forall in *.
  intros t Hin. specialize (Hd t Hin). specialize (Hlo t Hin).
  unfold WINDOW_SIZE in Hd. lia.
Qed.

End MoreRuns.

(** ** More on floats *)

Lemma binary_round_aux_not_negative (mx ex : Z) (lx : location) :
  SFltb (binary_round_aux prec emax false mx ex lx) (S754_zero false) = false.
Proof.
  unfold binary_round_aux.
  destruct (shr_fexp prec emax mx ex lx) as [mrs' e'].
  destruct (shr_fexp prec emax _ e' loc_Exact) as [mrs'' e''].
  destruct (shr_m mrs''); try reflexivity.
  destruct (e'' <=? emax - prec); reflexivity.
Qed.

(** A square root is never below zero: it is positive, a zero or a NaN. *)
Lemma sqrt_not_negative (x : float) : (PrimFloat.sqrt x <? 0)%float = false.
Proof.
  rewrite FloatAxioms.ltb_spec, FloatAxioms.sqrt_spec.
  change (Prim2SF 0) with (S754_zero false).
  unfold SF64sqrt, SFsqrt.
  destruct (Prim2SF x) as [s|[|]| |[|] m e]; try reflexivity.
  destruct (SFsqrt_core_binary prec emax (Z.pos m) e) as [[mz ez] lz].
  apply binary_round_aux_not_negative.
Qed.

(** Moving a finite mean towards itself leaves it where it is. *)
Lemma blend_fixed_point (m k : float) :
  is_finite m = true -> sf_positive (Prim2SF k) = true ->
  (m + (m - m) / k =? m)%float = true.
Proof.
  rewrite is_finite_spec, FloatAxioms.eqb_spec.
  rewrite FloatAxioms.add_spec, FloatAxioms.div_spec, FloatAxioms.sub_spec.
  destruct (Prim2SF k) as [sk|sk| |[|] mk ek]; try discriminate.
  destruct (Prim2SF m) as [sm|sm| |sm mm em]; try discriminate; intros _ _.
  - destruct sm; reflexivity.
  - unfold SF64sub, SFsub. rewrite Z.min_id. unfold shl_align.
    rewrite !Z.sub_diag. cbn [fst].
    change (binary_normalize prec emax 0 em false) with (S754_zero false).
    cbn [SF64div SFdiv SF64add SFadd]. apply SFeqb_finite_refl.
Qed.

Lemma SFcompare_antisym (a b : spec_float) :
  SFcompare b a = option_map CompOpp (SFcompare a b).
Proof.
  destruct a as [sa|sa| |sa ma ea], b as [sb|sb| |sb mb eb]; try reflexivity;
    try (destruct sa, sb; reflexivity);
    try (destruct sa; reflexivity); try (destruct sb; reflexivity).
  cbn [SFcompare option_map]. rewrite (Z.compare_antisym ea eb).
  assert (H : Pos.compare_cont Eq mb ma = CompOpp (Pos.compare_cont Eq ma mb))
    by (symmetry; apply (Pos.compare_cont_antisym ma mb Eq)).
  rewrite H.
  destruct sa, sb; try reflexivity;
    destruct (ea ?= eb); cbn [CompOpp]; try reflexivity.
  all: destruct (Pos.compare_cont Eq ma mb); reflexivity.
Qed.

Lemma SFcompare_opp (a b : spec_float) :
  SFcompare (SFopp a) (SFopp b) = SFcompare b a.
Proof.
  rewrite (SFcompare_antisym a b).
  destruct a as [sa|sa| |sa ma ea], b as [sb|sb| |sb mb eb]; try reflexivity;
    try (destruct sa, sb; reflexivity);
    try (destruct sa; reflexivity); try (destruct sb; reflexivity).
  cbn [SFcompare SFopp option_map].
  destruct sa, sb; try reflexivity; cbn [negb];
    destruct (ea ?= eb); cbn [CompOpp]; try reflexivity.
  all: destruct (Pos.compare_cont Eq ma mb); reflexivity.
Qed.

Lemma is_nan_spec (x : float) :
  is_nan x = match Prim2SF x with S754_nan => true | _ => false end.
Proof.
  unfold is_nan. rewrite FloatAxioms.eqb_spec.
  destruct (Prim2SF x) as [s|s| |s m e]; try reflexivity.
  - destruct s; reflexivity.
  - rewrite SFeqb_finite_refl. reflexivity.
Qed.

(** [x < y] fails exactly when [x] is a NaN or [y <= x], for [y] not a
    NaN. *)
Lemma ltb_false_iff (x y : float) :
  is_nan y = false ->
  (x <? y)%float = false <-> is_nan x = true \/ (y <=? x)%float = true.
Proof.
  rewrite !is_nan_spec, FloatAxioms.ltb_spec, FloatAxioms.leb_spec.
  unfold SFltb, SFleb. rewrite (SFcompare_antisym (Prim2SF x) (Prim2SF y)).
  destruct (Prim2SF y) as [sy|sy| |sy my ey] eqn:Ey; try discriminate;
    intros _;
    (destruct (Prim2SF x) as [sx|sx| |sx mx ex] eqn:Ex;
     [| | split; [left; reflexivity | reflexivity] |]);
    match goal with
    | |- context [SFcompare ?a ?b] =>
        assert (Hc : exists c, SFcompare a b = Some c)
          by (cbn;
              repeat match goal with
                     | |- context [match ?s with true => _ | false => _ end] =>
                         destruct s
                     end;
              eexists; reflexivity);
        destruct Hc as [c ->]
    end;
    destruct c; cbn; intuition discriminate.
Qed.

(** ** More on the classifier *)

(** X10: without the producer's flag a sample is left unflagged exactly when
    it is a NaN or lies between [LOWER_BOUND] and [UPPER_BOUND], the two
    bounds included. *)
Theorem unflagged_iff_nan_or_within_bounds (v p : float) :
  detect_anomaly v p false = false <->
  is_nan v = true \/
  ((float_of_int LOWER_BOUND <=? v)%float = true /\
   (v <=? float_of_int UPPER_BOUND)%float = true).
Proof.
  rewrite detect_anomaly_unfold. cbn [orb]. rewrite orb_false_iff.
  change (-20)%float with (float_of_int LOWER_BOUND).
  change 20%float with (float_of_int UPPER_BOUND).
  rewrite (ltb_false_iff v (float_of_int LOWER_BOUND) eq_refl).
  assert (Hhi : (float_of_int UPPER_BOUND <? v)%float = false <->
                is_nan v = true \/
                (v <=? float_of_int UPPER_BOUND)%float = true).
  { destruct (is_nan v) eqn:En.
    - split; [auto|]. intros _. revert En.
      rewrite is_nan_spec, FloatAxioms.ltb_spec.
      destruct (Prim2SF v); try discriminate.
      destruct (Prim2SF (float_of_int UPPER_BOUND)); reflexivity.
    - rewrite (ltb_false_iff (float_of_int UPPER_BOUND) v En).
      change (is_nan (float_of_int UPPER_BOUND)) with false.
      intuition discriminate. }
  rewrite Hhi. tauto.
Qed.

(** X11: the classifier gives a value and its negation the same answer. *)
Theorem classifier_is_symmetric (v p q : float) (flag : bool) :
  detect_anomaly (- v) p flag = detect_anomaly v q flag.
Proof.
  rewrite !detect_anomaly_unfold. f_equal.
  rewrite !FloatAxioms.ltb_spec, FloatAxioms.opp_spec. unfold SFltb.
  change (Prim2SF (-20)) with (SFopp (Prim2SF 20)).
  rewrite SFcompare_opp.
  rewrite <- (SFcompare_opp (SFopp (Prim2SF 20)) (Prim2SF v)).
  change (SFopp (SFopp (Prim2SF 20))) with (Prim2SF 20).
  apply orb_comm.
Qed.

(** ** More on the statistics *)

(** X12: whatever the state and the sample, [update_mean_std] never leaves
    a deviation that compares below zero (it leaves 0, 1 or a square
    root, which may be a NaN). *)
Theorem std_dev_never_negative (s : Stats) (v : float) :
  (std_dev (update_mean_std s v) <? 0)%float = false.
Proof.
  unfold update_mean_std.
  destruct (Deque.len (window s) =? 0); cbn [std_dev]; [reflexivity|].
  destruct (1 <? Deque.len (window s)); [apply sqrt_not_negative | reflexivity].
Qed.

(** X13: with at most [WINDOW_SIZE] values in the window, an update by a
    sample equal to the current finite mean leaves a mean that compares
    equal to it. *)
Theorem mean_is_a_fixed_point (s : Stats) :
  Deque.len (window s) <= WINDOW_SIZE ->
  is_finite (mean s) = true ->
  (mean (update_mean_std s (mean s)) =? mean s)%float = true.
Proof.
  intros Hlen Hfin. unfold update_mean_std.
  assert (H0 : 0 <= Deque.len (window s)) by (unfold Deque.len; lia).
  destruct (Deque.len (window s) =? 0) eqn:E; cbn [mean].
  - revert Hfin. rewrite is_finite_spec, FloatAxioms.eqb_spec.
    destruct (Prim2SF (mean s)) as [sm|sm| |sm mm em]; try discriminate;
      intros _; [destruct sm; reflexivity | apply SFeqb_finite_refl].
  - apply Z.eqb_neq in E. apply blend_fixed_point; [exact Hfin|].
    apply small_int_positive. unfold WINDOW_SIZE in Hlen. lia.
Qed.

Lemma mean_is_a_fixed_point_witness :
  (Deque.len (window (observe initial_stats 5)) <= WINDOW_SIZE /\
   is_finite (mean (observe initial_stats 5)) = true) /\
  (mean (update_mean_std (observe initial_stats 5)
           (mean (observe initial_stats 5)))
   =? mean (observe initial_stats 5))%float = true.
Proof.
  split; [split; [vm_compute; discriminate | reflexivity]|].
  apply (mean_is_a_fixed_point (observe initial_stats 5));
    [vm_compute; discriminate | reflexivity].
Defined.

(** ** The content of the series *)

Lemma nth_error_stamps (k j : nat) (t : Z) :
  nth_error (stamps k) j = Some t -> (j < k)%nat /\ t = Z.of_nat (S j).
Proof.
  intros H.
  assert (Hj : (j < k)%nat).
  { rewrite <- (stamps_length k). apply nth_error_Some. congruence. }
  split; [exact Hj|].
  unfold stamps in H. rewrite nth_error_map in H.
  destruct (nth_error (seq 1 k) j) as [x|] eqn:E; [|discriminate].
  injection H as <-. apply (nth_error_nth _ _ 0%nat) in E.
  rewrite seq_nth in E by exact Hj. subst x. reflexivity.
Qed.

(** Strictly increasing integers up to [b]: the first is at least as far
    below [b] as there are others after it. *)
Lemma increasing_head_bound (l : list Z) :
  forall x b,
    StronglySorted Z.lt (x :: l) -> Forall (fun y => y <= b) (x :: l) ->
    x + Z.of_nat (length l) <= b.
Proof.
  induction l as [|y l IH]; intros x b Hs Hb.
  - apply Forall_inv in Hb. simpl. lia.
  - apply StronglySorted_inv in Hs as [Hs Hx].
    apply Forall_inv in Hx. apply Forall_inv_tail in Hb.
    specialize (IH y b Hs Hb). simpl length. lia.
Qed.

(** The eviction loop stops at or before any entry that is not older than
    the cutoff. *)
Lemma stale_le_index (l : list Z) (c : Z) :
  forall j x, nth_error l j = Some x -> c <= x -> (stale l c <= j)%nat.
Proof.
  induction l as [|y l IH]; intros j x Hj Hx; simpl; [lia|].
  destruct (y <? c) eqn:E; [|lia].
  apply Z.ltb_lt in E. destruct j as [|j]; simpl in Hj.
  - injection Hj as ->. lia.
  - specialize (IH j x Hj Hx). lia.
Qed.

Section Series.

Variable format_2f : float -> string.

(** X14: after [k] ticks the raw-data series lists the last [min k 40]
    ticks, in order and without a gap up to [k], and the values of the
    samples of those ticks. *)
Theorem raw_series_is_the_last_forty (samples : list (float * bool)) :
  exists st,
    run_anomaly_detection format_2f initial_state samples = Some st /\
    items (data_x st) =
    map Z.of_nat
      (seq (S (length samples - 40)) (Nat.min (length samples) 40)) /\
    items (data_y st) = skipn (length samples - 40) (map fst samples).
Proof.
  destruct (run_raw_series format_2f samples) as (st & Hrun & _ & _ & Hx & Hy).
  exists st. split; [exact Hrun|]. split; [|exact Hy].
  rewrite Hx. unfold stamps. rewrite skipn_map, skipn_seq.
  f_equal. f_equal. lia.
Qed.

(** X15: at every index the raw-data series pairs a tick with the value of
    the sample processed at that tick. *)
Theorem raw_series_pairs_ticks_with_samples (samples : list (float * bool)) :
  exists st,
    run_anomaly_detection format_2f initial_state samples = Some st /\
    forall (i : nat) (t : Z),
      nth_error (items (data_x st)) i = Some t ->
      1 <= t <= Z.of_nat (length samples) /\
      exists v flag,
        nth_error (items (data_y st)) i = Some v /\
        nth_error samples (Z.to_nat (t - 1)) = Some (v, flag).
Proof.
  destruct (run_raw_series format_2f samples) as (st & Hrun & _ & _ & Hx & Hy).
  exists st. split; [exact Hrun|]. intros i t Hi.
  rewrite Hx, nth_error_skipn in Hi.
  apply nth_error_stamps in Hi as [Hlt ->].
  split; [lia|].
  rewrite Hy, nth_error_skipn, nth_error_map.
  replace (Z.to_nat (Z.of_nat (S (length samples - 40 + i)) - 1))
    with (length samples - 40 + i)%nat by lia.
  destruct (nth_error samples (length samples - 40 + i)) as [[v flag]|] eqn:E.
  - exists v, flag. split; reflexivity.
  - apply nth_error_None in E. lia.
Qed.

(** The time-based eviction never removes a raw-data entry: the bound of
    the deque has dropped it before. *)
Lemma raw_eviction_is_capacity (st : LoopState) (k : nat) :
  wf st ->
  current_time st = Z.of_nat k ->
  items (data_x st) = skipn (k - 40) (stamps k) ->
  evicted (items (data_x st) ++ [current_time st + 1]) (overflow (data_x st))
    (current_time st + 1 - WINDOW_SIZE)
  = overflow (data_x st).
Proof.
  intros Hwf Ht Hx.
  assert (Hov : (overflow (data_x st) + (k - 40) = S k - 40)%nat).
  { unfold overflow, Deque.len.
    rewrite (wf_data_x st Hwf), Hx, length_skipn, stamps_length.
    unfold DISPLAY_DURATION.
    destruct (40 <? _) eqn:E;
      [apply Z.ltb_lt in E | apply Z.ltb_ge in E]; lia. }
  apply evicted_fresh.
  replace (items (data_x st) ++ [current_time st + 1])
    with (skipn (k - 40) (stamps (S k))).
  - rewrite skipn_skipn, Hov.
    eapply Forall_impl; [|apply stamps_skipn_fresh].
    simpl. unfold WINDOW_SIZE. intros x Hlt. lia.
  - rewrite Hx, stamps_S, skipn_snoc by (rewrite stamps_length; lia).
    f_equal. f_equal. lia.
Qed.

(** The window of the statistics and [data_y] hold the same values. *)
Lemma run_window_is_data_y (samples : list (float * bool)) :
  exists st,
    run_anomaly_detection format_2f initial_state samples = Some st /\
    wf st /\
    (current_time st = Z.of_nat (length samples) /\
     items (data_x st) =
     skipn (length samples - 40) (stamps (length samples)) /\
     items (data_y st) = skipn (length samples - 40) (map fst samples)) /\
    items (window (stats st)) = items (data_y st).
Proof.
  apply (run_history_with format_2f
           (fun history st =>
              current_time st = Z.of_nat (length history) /\
              items (data_x st) =
              skipn (length history - 40) (stamps (length history)) /\
              items (data_y st) = skipn (length history - 40) (map fst history))
           (fun _ st => items (window (stats st)) = items (data_y st))).
  - intros history.
    destruct (run_raw_series format_2f history) as (st & Hrun & _ & H).
    exists st. split; assumption.
  - reflexivity.
  - intros history st v flag st' Hwf (Ht & Hx & _) Hw [Hs _ _ _ Hy _].
    rewrite Hs, observe_window, append_items, Hy.
    rewrite (raw_eviction_is_capacity st (length history) Hwf Ht Hx), Hw.
    f_equal. apply overflow_same_length.
    + rewrite (wf_window st Hwf), (wf_data_x st Hwf). reflexivity.
    + rewrite Hw. apply (wf_data_len st Hwf).
Qed.

(** X16: after every tick the window of the statistics holds the same
    values as [data_y], the last [min k 40] sample values. *)
Theorem window_holds_the_displayed_values (samples : list (float * bool)) :
  exists st,
    run_anomaly_detection format_2f initial_state samples = Some st /\
    items (window (stats st)) = items (data_y st) /\
    items (window (stats st)) = skipn (length samples - 40) (map fst samples) /\
    Deque.len (window (stats st)) = Z.min (Z.of_nat (length samples)) 40.
Proof.
  destruct (run_window_is_data_y samples)
    as (st & Hrun & _ & (_ & _ & Hy) & Hw).
  exists st. split; [exact Hrun|]. split; [exact Hw|].
  rewrite Hw, Hy. split; [reflexivity|].
  unfold Deque.len. rewrite Hw, Hy, length_skipn, length_map. lia.
Qed.

(** X17: the update of tick [k + 1] reads [n = min (k + 1) 40] as the
    length of the window: it moves the mean by the [n + 1]-th part of the
    distance to the sample, and for [n > 1] it takes as deviation the square
    root of the [n]-th part of the former deviation plus the product of the
    two distances.  From tick 40 on [n] stays at 40. *)
Theorem update_of_each_tick (samples : list (float * bool))
    (v : float) (flag : bool) :
  exists st st',
    run_anomaly_detection format_2f initial_state samples = Some st /\
    tick format_2f st (v, flag) = Some st' /\
    let n := Z.min (Z.of_nat (length samples) + 1) 40 in
    let m := mean (stats st) in
    mean (stats st') = (m + (v - m) / float_of_int (n + 1))%float /\
    std_dev (stats st') =
    if 1 <? n then
      PrimFloat.sqrt
        ((std_dev (stats st) + (v - m) * (v - mean (stats st')))
         / float_of_int n)
    else 1%float.
Proof.
  destruct (run_window_is_data_y samples)
    as (st & Hrun & Hwf & (_ & _ & Hy) & Hw).
  destruct (tick_spec format_2f st v flag Hwf)
    as (st' & Htick & _ & [Hs _ _ _ _ _]).
  exists st, st'. split; [exact Hrun|]. split; [exact Htick|].
  assert (Hn : Deque.len (Deque.append (window (stats st)) v) =
               Z.min (Z.of_nat (length samples) + 1) 40).
  { unfold Deque.len.
    rewrite append_items, length_skipn, length_app. unfold overflow, Deque.len.
    rewrite (wf_window st Hwf), Hw, Hy, length_skipn, length_map.
    unfold WINDOW_SIZE. simpl (length [v]).
    destruct (40 <? _) eqn:E;
      [apply Z.ltb_lt in E | apply Z.ltb_ge in E]; lia. }
  rewrite Hs. unfold observe, update_mean_std. cbn [window mean std_dev].
  rewrite Hn.
  replace (Z.min (Z.of_nat (length samples) + 1) 40 =? 0) with false
    by (symmetry; apply Z.eqb_neq; lia).
  cbn [mean std_dev]. split; reflexivity.
Qed.

End Series.

(** ** Anomalies stay listed while they are recent *)

Lemma nth_error_skipn_sub {A : Type} (l : list A) (n i : nat) :
  (n <= i)%nat -> nth_error (skipn n l) (i - n) = nth_error l i.
Proof. intros H. rewrite nth_error_skipn. f_equal. lia. Qed.

(** An entry that is not older than the cutoff and is not dropped by the
    bound of the deque stays in the series. *)
Lemma survives_eviction (l : list Z) (tr : nat) (c : Z) (i : nat) (t : Z) :
  nth_error l i = Some t -> c <= t -> (tr <= i)%nat ->
  (evicted l tr c <= i)%nat.
Proof.
  intros Hi Hc Htr. unfold evicted.
  rewrite <- (nth_error_skipn_sub l tr i Htr) in Hi.
  pose proof (stale_le_index _ c _ _ Hi Hc). lia.
Qed.

Lemma flagged_at_earlier (history : list (float * bool)) (sample : float * bool)
    (t : Z) (v : float) :
  flagged_at (history ++ [sample]) t v ->
  t <= Z.of_nat (length history) ->
  flagged_at history t v.
Proof.
  intros (Ht & flag & Hn & Hd) Hle. split; [exact Ht|]. exists flag.
  assert (Hlt : (Z.to_nat (t - 1) < length history)%nat) by lia.
  rewrite nth_error_app1 in Hn by exact Hlt. split; [exact Hn|].
  unfold previous_before in *. rewrite firstn_app in Hd.
  replace (Z.to_nat (t - 1) - length history)%nat with 0%nat in Hd by lia.
  simpl in Hd. rewrite app_nil_r in Hd. exact Hd.
Qed.

Section RecentAnomalies.

Variable format_2f : float -> string.

Lemma run_anomaly_facts (samples : list (float * bool)) :
  exists st,
    run_anomaly_detection format_2f initial_state samples = Some st /\
    (current_time st = Z.of_nat (length samples) /\
     previous_value st = previous_before samples (length samples) /\
     fresh_increasing (current_time st) (items (anomaly_x st)) /\
     Deque.len (anomaly_x st) <= DISPLAY_DURATION).
Proof.
  destruct (run_anomaly_records format_2f samples)
    as (st & Hrun & _ & Ht & Hp & _).
  destruct (run_fresh_increasing format_2f samples)
    as (st2 & Hrun2 & _ & _ & Ha).
  destruct (run_anomaly_bounded format_2f samples) as (st3 & Hrun3 & _ & Hb).
  rewrite <- (run_unique _ _ _ _ Hrun Hrun2) in Ha.
  rewrite <- (run_unique _ _ _ _ Hrun Hrun3) in Hb.
  exists st. auto.
Qed.

(** Every sample classified as an anomaly less than [WINDOW_SIZE] ticks ago
    is in the anomaly deques, at one index. *)
Lemma run_recent_anomalies (samples : list (float * bool)) :
  exists st,
    run_anomaly_detection format_2f initial_state samples = Some st /\
    wf st /\
    (current_time st = Z.of_nat (length samples) /\
     previous_value st = previous_before samples (length samples) /\
     fresh_increasing (current_time st) (items (anomaly_x st)) /\
     Deque.len (anomaly_x st) <= DISPLAY_DURATION) /\
    forall t v,
      flagged_at samples t v ->
      current_time st - WINDOW_SIZE < t ->
      exists i,
        nth_error (items (anomaly_x st)) i = Some t /\
        nth_error (items (anomaly_y st)) i = Some v /\
        nth_error (items (anomaly_labels st)) i = Some (format_2f v).
Proof.
  apply (run_history_with format_2f
           (fun history st =>
              current_time st = Z.of_nat (length history) /\
              previous_value st = previous_before history (length history) /\
              fresh_increasing (current_time st) (items (anomaly_x st)) /\
              Deque.len (anomaly_x st) <= DISPLAY_DURATION)
           (fun history st =>
              forall t v,
                flagged_at history t v ->
                current_time st - WINDOW_SIZE < t ->
                exists i,
                  nth_error (items (anomaly_x st)) i = Some t /\
                  nth_error (items (anomaly_y st)) i = Some v /\
                  nth_error (items (anomaly_labels st)) i
                  = Some (format_2f v))).
  - exact run_anomaly_facts.
  - intros t v (Ht & flag & Hn & _). destruct (Z.to_nat (t - 1)); discriminate.
  - intros history st v0 flag0 st' Hwf (Hct & Hprev & [Hsort Hbnd] & Hcap) IH
      [_ _ Ht' _ _ Ha] t v Hfl Hrecent.
    cbv zeta in Ha.
    set (b := detect_anomaly v0 (previous_value st) flag0) in *.
    set (tr := if b then overflow (anomaly_x st) else 0%nat) in *.
    set (n := evicted _ tr _) in *.
    destruct Ha as (Hax & Hay & Hal).
    rewrite Ht' in Hrecent. unfold WINDOW_SIZE in Hrecent.
    assert (Hlen : (Z.to_nat (t - 1) < length (history ++ [(v0, flag0)]))%nat).
    { destruct Hfl as (_ & flag & Hn & _). apply nth_error_Some. congruence. }
    rewrite length_app in Hlen. simpl in Hlen.
    assert (H1 : 1 <= t) by apply Hfl.
    destruct (Z.eq_dec t (current_time st + 1)) as [Hnew|Hold].
    + (* the sample of this tick *)
      destruct Hfl as (_ & flag & Hn & Hd).
      replace (Z.to_nat (t - 1)) with (length history) in Hn, Hd by lia.
      rewrite nth_error_app2, Nat.sub_diag in Hn by lia.
      injection Hn as <- <-.
      unfold previous_before in Hd.
      rewrite firstn_app, Nat.sub_diag in Hd. simpl in Hd.
      rewrite app_nil_r in Hd.
      fold (previous_before history (length history)) in Hd.
      rewrite <- Hprev in Hd. fold b in Hd.
      assert (Hn : (n <= length (items (anomaly_x st)))%nat).
      { unfold n, tr. rewrite Hd. simpl pending.
        apply evicted_keeps_tail.
        - apply (overflow_le_length _ _ (wf_anomaly_x st Hwf) eq_refl).
        - unfold WINDOW_SIZE. lia. }
      exists (length (items (anomaly_x st)) - n)%nat.
      rewrite Hax, Hay, Hal, !nth_error_skipn_sub by exact Hn.
      rewrite Hd. simpl pending.
      rewrite nth_error_app2, Nat.sub_diag by lia.
      rewrite <- (wf_anomaly_y_len st Hwf) at 1.
      rewrite nth_error_app2, Nat.sub_diag by lia.
      rewrite <- (wf_anomaly_labels_len st Hwf).
      rewrite nth_error_app2, Nat.sub_diag by lia.
      subst t. repeat split.
    + (* a sample of an earlier tick *)
      assert (Hfl' : flagged_at history t v)
        by (apply (flagged_at_earlier history (v0, flag0)); [exact Hfl | lia]).
      destruct (IH t v Hfl' ltac:(unfold WINDOW_SIZE; lia))
        as (i & Hix & Hiy & Hil).
      assert (Htr : (tr <= i)%nat).
      { destruct i as [|i];
          [|unfold tr, overflow; destruct b, (maxlen (anomaly_x st));
            try destruct (_ <? _); lia].
        unfold tr. destruct b; [|lia].
        unfold overflow. rewrite (wf_anomaly_x st Hwf).
        destruct (DISPLAY_DURATION <? _) eqn:E; [|lia].
        apply Z.ltb_lt in E. exfalso.
        unfold Deque.len, DISPLAY_DURATION in *.
        destruct (items (anomaly_x st)) as [|x0 rest] eqn:El;
          [discriminate|].
        injection Hix as ->.
        assert (Hhi : Forall (fun y => y <= current_time st) (t :: rest)).
        { eapply Forall_impl; [|exact Hbnd]. simpl; intros; lia. }
        pose proof (increasing_head_bound rest t _ Hsort Hhi).
        simpl length in *. lia. }
      assert (Hn : (n <= i)%nat).
      { unfold n. apply (survives_eviction _ _ _ _ t);
          [| unfold WINDOW_SIZE; lia | exact Htr].
        rewrite nth_error_app1; [exact Hix|].
        apply nth_error_Some. congruence. }
      exists (i - n)%nat.
      rewrite Hax, Hay, Hal, !nth_error_skipn_sub by exact Hn.
      rewrite !nth_error_app1 by (apply nth_error_Some; congruence).
      auto.
Qed.

(** X18: after every tick, every sample that the loop classified as an
    anomaly less than [WINDOW_SIZE] = 40 ticks ago is listed by the anomaly
    series: its tick, its value and the rendering of its value stand at
    one index of the three deques. *)
Theorem recent_anomalies_are_listed (samples : list (float * bool)) :
  exists st,
    run_anomaly_detection format_2f initial_state samples = Some st /\
    forall t v,
      flagged_at samples t v ->
      Z.of_nat (length samples) - 40 < t ->
      exists i,
        nth_error (items (anomaly_x st)) i = Some t /\
        nth_error (items (anomaly_y st)) i = Some v /\
        nth_error (items (anomaly_labels st)) i = Some (format_2f v).
Proof.
  destruct (run_recent_anomalies samples)
    as (st & Hrun & _ & (Ht & _) & H).
  exists st. split; [exact Hrun|].
  intros t v Hfl Hrecent. apply (H t v Hfl).
  rewrite Ht. unfold WINDOW_SIZE. exact Hrecent.
Qed.

End RecentAnomalies.

(** ** A non-finite mean stays non-finite *)

Lemma blend_stays_not_finite (m v k : float) :
  is_finite m = false -> sf_positive (Prim2SF k) = true ->
  is_finite (m + (v - m) / k) = false.
Proof.
  rewrite !is_finite_spec.
  rewrite FloatAxioms.add_spec, FloatAxioms.div_spec, FloatAxioms.sub_spec.
  destruct (Prim2SF m) as [sm|sm| |sm mm em]; try discriminate;
    destruct (Prim2SF k) as [sk|sk| |[|] mk ek]; try discriminate;
    destruct (Prim2SF v) as [sv|sv| |sv mv ev]; intros _ _; try reflexivity.
  all: destruct sv, sm; reflexivity.
Qed.

Lemma observe_stays_not_finite (s : Stats) (v : float) :
  maxlen (window s) = Some WINDOW_SIZE ->
  Deque.len (window s) <= WINDOW_SIZE ->
  is_finite (mean s) = false ->
  is_finite (mean (observe s v)) = false.
Proof.
  intros Hm Hlen Hfin.
  assert (Hn : Deque.len (Deque.append (window s) v) <= WINDOW_SIZE)
    by (apply append_length; [exact Hm | discriminate | exact Hlen]).
  assert (Hpos : 0 < Deque.len (Deque.append (window s) v)).
  { unfold Deque.len in *.
    rewrite append_items, length_skipn, length_app. unfold overflow, Deque.len.
    rewrite Hm. unfold WINDOW_SIZE in *. simpl (length [v]).
    destruct (40 <? _) eqn:E; [apply Z.ltb_lt in E|]; lia. }
  unfold observe, update_mean_std; cbn [window mean].
  set (n := Deque.len (Deque.append (window s) v)) in *.
  replace (n =? 0) with false by (symmetry; apply Z.eqb_neq; lia).
  cbn [mean]. apply blend_stays_not_finite; [exact Hfin|].
  apply small_int_positive. unfold WINDOW_SIZE in Hn. lia.
Qed.

Section Corruption.

Variable format_2f : float -> string.

Lemma run_app (l1 l2 : list (float * bool)) :
  forall st,
    run_anomaly_detection format_2f st (l1 ++ l2) =
    match run_anomaly_detection format_2f st l1 with
    | Some st' => run_anomaly_detection format_2f st' l2
    | None => None
    end.
Proof.
  induction l1 as [|s l1 IH]; intros st; [reflexivity|].
  cbn [app run_anomaly_detection].
  destruct (tick format_2f st s); [apply IH | reflexivity].
Qed.

Lemma not_finite_mean_persists (more : list (float * bool)) :
  forall st,
    wf st ->
    Deque.len (window (stats st)) <= WINDOW_SIZE ->
    is_finite (mean (stats st)) = false ->
    exists st',
      run_anomaly_detection format_2f st more = Some st' /\
      is_finite (mean (stats st')) = false.
Proof.
  induction more as [|[v flag] more IH]; intros st Hwf Hlen Hfin;
    cbn [run_anomaly_detection].
  - exists st. split; [reflexivity | exact Hfin].
  - destruct (tick_spec format_2f st v flag Hwf)
      as (st' & -> & Hwf' & [Hs _ _ _ _ _]).
    apply IH; [exact Hwf' | |]; rewrite Hs.
    + rewrite observe_window.
      apply append_length;
        [apply (wf_window st Hwf) | discriminate | exact Hlen].
    + apply observe_stays_not_finite;
        [apply (wf_window st Hwf) | exact Hlen | exact Hfin].
Qed.

(** X19: once the loop has processed a NaN or an infinity, the running
    mean is never finite again, whatever samples follow. *)
Theorem non_finite_sample_spoils_the_mean (before more : list (float * bool))
    (v : float) (flag : bool) :
  is_finite v = false ->
  exists st,
    run_anomaly_detection format_2f initial_state
      (before ++ (v, flag) :: more) = Some st /\
    is_finite (mean (stats st)) = false.
Proof.
  intros Hv.
  destruct (run_window_bounded format_2f before) as (st0 & Hrun & Hwf & Hlen).
  destruct (tick_spec format_2f st0 v flag Hwf)
    as (st1 & Htick & Hwf1 & [Hs _ _ _ _ _]).
  rewrite run_app, Hrun. cbn [run_anomaly_detection]. rewrite Htick.
  apply not_finite_mean_persists; [exact Hwf1 | |]; rewrite Hs.
  - rewrite observe_window.
    apply append_length;
      [apply (wf_window st0 Hwf) | discriminate | exact Hlen].
  - apply observe_not_finite;
      [apply (wf_window st0 Hwf) | exact Hlen | exact Hv].
Qed.

End Corruption.

Lemma non_finite_sample_spoils_the_mean_witness :
  is_finite nan = false /\
  exists st,
    run_anomaly_detection python_format_2f initial_state
      ([(5, false)] ++ (nan, false) :: [(1, false); (2, false)])%float
    = Some st /\
    is_finite (mean (stats st)) = false.
Proof.
  split; [reflexivity|].
  apply (non_finite_sample_spoils_the_mean python_format_2f
           [(5, false)]%float [(1, false); (2, false)]%float nan false).
  reflexivity.
Defined.
